(** * Disk Marmitas API: the HTTP routes of [server.js] over a document store

    The server exposes four routes.  Three of them read, overwrite or patch
    one document kept at a fixed path of a remote document database; the
    fourth is a liveness probe.  This development embeds the route handlers
    as functions over an explicit store state and proves their contract. *)

From Stdlib Require Import ZArith Ascii String List.
From Stdlib Require Import Floats.SpecFloat.
From stdpp Require Import base option strings gmap fin_maps.

Local Open Scope string_scope.
Local Open Scope Z_scope.

Set Warnings "-register-all".

(** ** JavaScript values *)

(** A parsed JSON value.  Numbers are IEEE doubles ([spec_float]), objects
    are finite maps from property names to values. *)
Inductive json : Type :=
  | JNull
  | JBool (b : bool)
  | JNum (x : spec_float)
  | JStr (s : string)
  | JArr (l : list json)
  | JObj (m : gmap string json).

(** A JavaScript value as a handler sees it: [None] is [undefined]. *)
Abbreviation jsval := (option json).

Definition undefined : jsval := None.

(** Evaluation of an expression either yields a value or throws. *)
Inductive completion (A : Type) : Type :=
  | Normal (a : A)
  | Throw.
Arguments Normal {A} a.
Arguments Throw {A}.

(** [ToBoolean]: [undefined], [null], [false], [+0], [-0], [NaN] and the
    empty string are falsy, everything else (objects and arrays included)
    is truthy. *)
Definition truthy (v : jsval) : bool :=
  match v with
  | None => false
  | Some JNull => false
  | Some (JBool b) => b
  | Some (JNum (S754_zero _)) => false
  | Some (JNum S754_nan) => false
  | Some (JNum _) => true
  | Some (JStr s) => negb (String.eqb s "")
  | Some (JArr _) => true
  | Some (JObj _) => true
  end.

(** The [typeof] operator on the values above ([typeof null] is
    ["object"], as are arrays). *)
Definition typeof (v : jsval) : string :=
  match v with
  | None => "undefined"
  | Some (JBool _) => "boolean"
  | Some (JNum _) => "number"
  | Some (JStr _) => "string"
  | Some JNull | Some (JArr _) | Some (JObj _) => "object"
  end.

(** The test [typeof v === 'boolean'], handing back the boolean when it
    holds (see [as_boolean_typeof]). *)
Definition as_boolean (v : jsval) : option bool :=
  match v with
  | Some (JBool b) => Some b
  | _ => None
  end.

(** Property read [v.k] (also what the destructuring [const { k } = v]
    does).  Reading from [undefined] or [null] throws a TypeError; an
    object yields its own property or [undefined]; primitives and arrays
    only have inherited properties.  The equation is for names [k] that
    are no built-in or prototype property (the handlers read
    ["categories"] and ["isOpen"]). *)
Definition get_prop (v : jsval) (k : string) : completion jsval :=
  match v with
  | None | Some JNull => Throw
  | Some (JObj m) => Normal (m !! k)
  | Some _ => Normal undefined
  end.

(** ** HTTP responses *)

(** What the handler hands to the response: [res.send(text)] or
    [res.json(value)], [Json v] recording the argument [v] of [res.json].
    What goes over the wire is [JSON.stringify(v)]; [received] below is
    the body as the client reads it. *)
Inductive payload : Type :=
  | Text (s : string)
  | Json (v : json).

Record response : Type := Response { status : Z; content : payload }.

(** [res.send(s)]: status 200 unless set before. *)
Definition send (s : string) : response := Response 200 (Text s).
(** [res.json(v)] and [res.status(code).json(v)]. *)
Definition json_ok (v : json) : response := Response 200 (Json v).
Definition status_json (code : Z) (v : json) : response := Response code (Json v).

(** The object literal [{ erro: msg }]. *)
Definition erro (msg : string) : json := JObj {[ "erro" := JStr msg ]}.

(** A response carries an error body when it is a JSON object with an
    [erro] message. *)
Definition is_error_body (p : payload) : Prop :=
  exists msg, p = Json (erro msg).

(** ** The document store *)

(** The calls the server makes on the database client:
    [db.doc(path).get()], [db.doc(path).set(data)] and
    [db.doc(path).update(fields)]. *)
Inductive store_call : Type :=
  | DocGet (path : string)
  | DocSet (path : string) (data : json)
  | DocUpdate (path : string) (fields : gmap string json).

(** The remote database: the documents by path, and the calls that
    reached it, latest first. *)
Record firestore : Type := Firestore {
  docs : gmap string json;
  calls : list store_call
}.

(** The client handle [db].  Whether a call is served or fails
    (connectivity, permissions, the store's own validation of the data)
    is outside the server's control: the handle decides it per call. *)
Record client : Type := Client { serves : store_call -> bool }.

(** Outcome of an awaited store call that settles: resolved or rejected.
    The server sets no timeout: a call that never settles leaves its
    request without an answer for good.  Such calls are outside this
    model, which follows a request whose store call settles. *)
Inductive store_result (A : Type) : Type :=
  | Resolved (a : A)
  | Rejected.
Arguments Resolved {A} a.
Arguments Rejected {A}.

(** Modelled from the spec: the database client library is not part of
    the repository; this is how it reads the [dotPath] of a field update.
    Segments of a dotted field path: ["settings.isOpen"] names the field
    [isOpen] nested under the [settings] sub-structure. *)
Fixpoint split_dots (s : string) : list string :=
  match s with
  | EmptyString => [""]
  | String c rest =>
      if Ascii.eqb c "."%char then "" :: split_dots rest
      else match split_dots rest with
           | seg :: segs => String c seg :: segs
           | [] => [String c ""]
           end
  end.

(** Value of the field at a path of a document, [undefined] if there is
    none. *)
Fixpoint field_at (p : list string) (d : json) : jsval :=
  match p with
  | [] => Some d
  | k :: rest =>
      match d with
      | JObj m => m !! k ≫= field_at rest
      | _ => None
      end
  end.

(** Modelled from the spec: the database client library is not part of
    the repository; this is the write of one nested field, "updates
    exactly the named nested field, leaving all sibling fields untouched".
    The maps on the way are kept and only the named entry is replaced; a
    missing map, or a value in its place that is not a map, becomes a map
    holding just the entry. *)
Fixpoint set_field (p : list string) (v : json) (d : jsval) : json :=
  match p with
  | [] => v
  | k :: rest =>
      let m := match d with Some (JObj m) => m | _ => ∅ end in
      JObj (<[ k := set_field rest v (m !! k) ]> m)
  end.

Module Store.

Definition record (c : store_call) (fs : firestore) : firestore :=
  Firestore (docs fs) (c :: calls fs).

(** Modelled from the spec: the database client library is not part of
    the repository.  [fetch()] returns the full document contents, or
    an absent marker if no document exists at the path; it fails with a
    store error on connectivity or permission problems. *)
Definition fetch (c : client) (path : string) (fs : firestore)
  : store_result jsval * firestore :=
  let call := DocGet path in
  if serves c call then (Resolved (docs fs !! path), record call fs)
  else (Rejected, record call fs).

(** Modelled from the spec: the database client library is not part of
    the repository.  [replace(fullPayload)] overwrites the entire
    document with the payload; it fails with a store error on failure,
    with no partial application. *)
Definition replace (c : client) (path : string) (data : json) (fs : firestore)
  : store_result unit * firestore :=
  let call := DocSet path data in
  if serves c call
  then (Resolved tt, Firestore (<[ path := data ]> (docs fs)) (call :: calls fs))
  else (Rejected, record call fs).

(** Modelled from the spec: the database client library is not part of
    the repository.  [patchField(dotPath, value)] updates exactly the
    named nested field, leaving all sibling fields untouched; it fails
    with a store error on failure.  An update of a document that does
    not exist is such a failure (the client creates documents only
    through [set]). *)
Definition patchField (c : client) (path : string)
    (fields : gmap string json) (fs : firestore)
  : store_result unit * firestore :=
  let call := DocUpdate path fields in
  match docs fs !! path with
  | Some d =>
      if serves c call
      then
        let d' := map_fold (fun k v acc => set_field (split_dots k) v (Some acc))
                           d fields in
        (Resolved tt, Firestore (<[ path := d' ]> (docs fs)) (call :: calls fs))
      else (Rejected, record call fs)
  | None => (Rejected, record call fs)
  end.

End Store.

(** ** The routes *)

(** [const DOC_PATH = 'configuracoes/menu'] *)
Definition DOC_PATH : string := "configuracoes/menu".

(** A handler runs against the store and, its store call settled, either
    answers or throws (an asynchronous handler that throws outside its
    [try] sends nothing). *)
Abbreviation handler := (firestore -> completion response * firestore).

(** [app.get('/')] *)
Definition get_root : handler := fun fs =>
  (Normal (send "Backend Disk Marmitas está Online! 🚀"), fs).

Definition no_db : response :=
  status_json 500 (erro "Base de dados não conectada.").

(** [app.get('/api/menu')] *)
Definition get_menu (db : option client) : handler := fun fs =>
  match db with
  | None => (Normal no_db, fs)
  | Some c =>
      match Store.fetch c DOC_PATH fs with
      | (Resolved None, fs') =>
          (Normal (status_json 404 (erro "Configuração não encontrada.")), fs')
      | (Resolved (Some data), fs') => (Normal (json_ok data), fs')
      | (Rejected, fs') =>
          (Normal (status_json 500 (erro "Erro interno no servidor.")), fs')
      end
  end.

(** The double-quote character, for messages that quote a field name. *)
Definition dquote : string := String (Ascii.ascii_of_nat 34) "".

Definition invalid_menu : response :=
  status_json 400
    (erro ("Dados inválidos. O objeto deve conter "
           +:+ dquote +:+ "categories" +:+ dquote +:+ ".")).

(** [app.put('/api/menu')], [body] being [req.body]. *)
Definition put_menu (db : option client) (body : jsval) : handler := fun fs =>
  match db with
  | None => (Normal no_db, fs)
  | Some c =>
      match body with
      | None => (Normal invalid_menu, fs)
      | Some novosDados =>
          if negb (truthy (Some novosDados)) then (Normal invalid_menu, fs)
          else
            match get_prop (Some novosDados) "categories" with
            | Throw => (Throw, fs)
            | Normal categories =>
                if negb (truthy categories) then (Normal invalid_menu, fs)
                else
                  match Store.replace c DOC_PATH novosDados fs with
                  | (Resolved _, fs') =>
                      (Normal (json_ok (JObj {[ "mensagem" :=
                                 JStr "Menu atualizado com sucesso!" ]})), fs')
                  | (Rejected, fs') =>
                      (Normal (status_json 500
                                 (erro "Erro ao gravar dados na base de dados.")), fs')
                  end
            end
      end
  end.

(** The template literal of the confirmation message. *)
Definition loja_mensagem (isOpen : bool) : string :=
  "Loja " +:+ (if isOpen then "ABERTA" else "FECHADA") +:+ " com sucesso.".

(** [app.patch('/api/status-loja')], [body] being [req.body]. *)
Definition patch_status_loja (db : option client) (body : jsval) : handler := fun fs =>
  match db with
  | None => (Normal no_db, fs)
  | Some c =>
      match get_prop body "isOpen" with
      | Throw => (Throw, fs)
      | Normal isOpen =>
          match as_boolean isOpen with
          | None =>
              (Normal (status_json 400
                 (erro "O campo 'isOpen' deve ser booleano (true ou false).")), fs)
          | Some b =>
              match Store.patchField c DOC_PATH {[ "settings.isOpen" := JBool b ]} fs with
              | (Resolved _, fs') =>
                  (Normal (json_ok (JObj {[ "mensagem" := JStr (loja_mensagem b);
                                            "estado" := JBool b ]})), fs')
              | (Rejected, fs') =>
                  (Normal (status_json 500 (erro "Erro ao atualizar estado.")), fs')
              end
          end
      end
  end.

(** The routes registered on the application. *)
Inductive route : Type :=
  | GET_root
  | GET_api_menu
  | PUT_api_menu
  | PATCH_api_status_loja.

Definition dispatch (db : option client) (r : route) (body : jsval) : handler :=
  match r with
  | GET_root => get_root
  | GET_api_menu => get_menu db
  | PUT_api_menu => put_menu db body
  | PATCH_api_status_loja => patch_status_loja db body
  end.

(** The routes that go through the database handle. *)
Definition database_backed (r : route) : bool :=
  match r with
  | GET_root => false
  | _ => true
  end.

(** A handle whose every call is served. *)
Definition healthy : client := Client (fun _ => true).
(** A handle whose every call fails. *)
Definition unreachable : client := Client (fun _ => false).

Definition empty_store : firestore := Firestore ∅ [].

(** ** Vocabulary of the statements *)

(** The value has an own property [k] (whatever its value). *)
Definition has_field (k : string) (v : jsval) : bool :=
  match v with
  | Some (JObj m) => match m !! k with Some _ => true | None => false end
  | _ => false
  end.

(** The path written by the status route. *)
Definition isOpen_path : list string := ["settings"; "isOpen"].

(** The object literal [{ 'settings.isOpen': isOpen }] handed to [update]. *)
Definition isOpen_update (b : bool) : gmap string json :=
  {[ "settings.isOpen" := JBool b ]}.

(** The confirmation of a full replace. *)
Definition menu_updated : response :=
  json_ok (JObj {[ "mensagem" := JStr "Menu atualizado com sucesso!" ]}).

(** [JSON.stringify] followed by the client's [JSON.parse]: a number that
    is not finite ([Infinity], [NaN]) is written as [null], negative zero
    as [0]; every other value comes back as it was. *)
Fixpoint wire (v : json) : json :=
  match v with
  | JNum (S754_infinity _) | JNum S754_nan => JNull
  | JNum (S754_zero _) => JNum (S754_zero false)
  | JArr l => JArr (map wire l)
  | JObj m => JObj (wire <$> m)
  | _ => v
  end.

(** The body of a response as the client reads it. *)
Definition received (p : payload) : payload :=
  match p with
  | Text s => Text s
  | Json v => Json (wire v)
  end.

(** The value holds no number that JSON cannot carry: no [Infinity], no
    [NaN], no negative zero, at any depth. *)
Fixpoint json_exact (v : json) : bool :=
  match v with
  | JNum (S754_infinity _) | JNum S754_nan | JNum (S754_zero true) => false
  | JArr l => forallb json_exact l
  | JObj m => map_fold (fun _ x acc => json_exact x && acc) true m
  | _ => true
  end.

(** Number of nodes of a value, the measure of inductions on values. *)
Fixpoint json_size (v : json) : nat :=
  match v with
  | JArr l => S (list_sum (map json_size l))
  | JObj m => S (map_fold (fun _ x acc => (json_size x + acc)%nat) 0%nat m)
  | _ => 1%nat
  end.

(** Write-then-read: the replace is confirmed and the fetch that follows
    it, with no other writer in between, is answered 200 with a body the
    client reads as the payload. *)
Definition roundtrip (c : client) (novosDados : json) (fs : firestore) : Prop :=
  exists fs1,
    put_menu (Some c) (Some novosDados) fs = (Normal menu_updated, fs1)
    /\ exists resp,
         fst (get_menu (Some c) fs1) = Normal resp
         /\ status resp = 200
         /\ received (content resp) = Json novosDados.

(** ** Start-up: the credentials and the database handle *)

(** What a step of the start-up yields: a value, or the error it throws
    with its message. *)
Inductive attempt (A : Type) : Type :=
  | Loaded (a : A)
  | Failed (message : string).
Arguments Loaded {A} a.
Arguments Failed {A} message.

(** What the process finds when it starts: the environment variable
    [FIREBASE_SERVICE_ACCOUNT], the built-in [JSON.parse], what
    [require('./serviceAccountKey.json')] gives, and what
    [admin.initializeApp({ credential: admin.credential.cert(sa) })] does
    with a service account: register the application, whose Firestore
    handle is then the client, or throw. *)
Record host : Type := Host {
  FIREBASE_SERVICE_ACCOUNT : option string;
  JSON_parse : string -> attempt json;
  serviceAccountKey : attempt json;
  initializeApp : json -> attempt client
}.

Inductive console_line : Type :=
  | Log (s : string)
  | Error (s : string).

(** The body of the [if]/[else] inside the [try]: the service account and
    the line logged once it is read. *)
Definition load_service_account (h : host) : attempt json * list console_line :=
  if truthy (JStr <$> FIREBASE_SERVICE_ACCOUNT h)
  then
    match JSON_parse h (default "" (FIREBASE_SERVICE_ACCOUNT h)) with
    | Loaded sa => (Loaded sa, [Log "✅ Credenciais carregadas via Variável de Ambiente."])
    | Failed message => (Failed message, [])
    end
  else
    match serviceAccountKey h with
    | Loaded sa => (Loaded sa, [Log "✅ Credenciais carregadas via ficheiro local."])
    | Failed message => (Failed message, [])
    end.

(** The [catch] block. *)
Definition critical (message : string) : list console_line :=
  [ Error "⚠️ CRÍTICO: Não foi possível carregar as credenciais do Firebase.";
    Error "Certifica-te de que o ficheiro 'serviceAccountKey.json' existe ou a variável 'FIREBASE_SERVICE_ACCOUNT' está definida.";
    Error ("Erro: " +:+ message) ].

(** The [try]/[catch] and [const db = admin.apps.length ? admin.firestore()
    : null]: in a fresh process an application is registered exactly when
    [initializeApp] returned. *)
Definition startup (h : host) : option client * list console_line :=
  match load_service_account h with
  | (Loaded sa, out) =>
      match initializeApp h sa with
      | Loaded c => (Some c, out)
      | Failed message => (None, (out ++ critical message)%list)
      end
  | (Failed message, out) => (None, (out ++ critical message)%list)
  end.

(** ** Requests one after another *)

Record request : Type := Request { target : route; req_body : jsval }.

(** The requests of a run, each with the client as it behaves when the
    request arrives: the handle is set once at start-up ([configured]),
    whether the store serves a call may change from one request to the
    next.  A handler that throws leaves the store as it found it. *)
Fixpoint session (configured : bool) (steps : list (client * request))
    (fs : firestore) : list (completion response) * firestore :=
  match steps with
  | [] => ([], fs)
  | (c, rq) :: rest =>
      let (answer, fs1) :=
        dispatch (if configured then Some c else None) (target rq) (req_body rq) fs in
      let (answers, fs2) := session configured rest fs1 in
      (answer :: answers, fs2)
  end.

(** The document path a store call addresses. *)
Definition call_path (c : store_call) : string :=
  match c with
  | DocGet path | DocSet path _ | DocUpdate path _ => path
  end.

(** The document is an object whose [categories] passes the check of the
    replace route. *)
Definition has_categories (d : json) : bool :=
  match d with
  | JObj m => truthy (m !! "categories")
  | _ => false
  end.

(** The ways a request can be served, read off the handlers: the answer
    and the store it leaves. *)
Inductive served (db : option client) (fs : firestore)
  : route -> jsval -> completion response -> firestore -> Prop :=
  | served_root body :
      served db fs GET_root body
        (Normal (send "Backend Disk Marmitas está Online! 🚀")) fs
  | served_no_db r body :
      database_backed r = true -> db = None ->
      served db fs r body (Normal no_db) fs
  | served_get_absent c body :
      db = Some c -> serves c (DocGet DOC_PATH) = true ->
      docs fs !! DOC_PATH = None ->
      served db fs GET_api_menu body
        (Normal (status_json 404 (erro "Configuração não encontrada.")))
        (Store.record (DocGet DOC_PATH) fs)
  | served_get_found c body d :
      db = Some c -> serves c (DocGet DOC_PATH) = true ->
      docs fs !! DOC_PATH = Some d ->
      served db fs GET_api_menu body (Normal (json_ok d))
        (Store.record (DocGet DOC_PATH) fs)
  | served_get_failed c body :
      db = Some c -> serves c (DocGet DOC_PATH) = false ->
      served db fs GET_api_menu body
        (Normal (status_json 500 (erro "Erro interno no servidor.")))
        (Store.record (DocGet DOC_PATH) fs)
  | served_put_invalid c body :
      db = Some c ->
      truthy body = false \/
        (exists x, get_prop body "categories" = Normal x /\ truthy x = false) ->
      served db fs PUT_api_menu body (Normal invalid_menu) fs
  | served_put_stored c novosDados x :
      db = Some c ->
      get_prop (Some novosDados) "categories" = Normal x -> truthy x = true ->
      serves c (DocSet DOC_PATH novosDados) = true ->
      served db fs PUT_api_menu (Some novosDados) (Normal menu_updated)
        (Firestore (<[ DOC_PATH := novosDados ]> (docs fs))
                   (DocSet DOC_PATH novosDados :: calls fs))
  | served_put_failed c novosDados x :
      db = Some c ->
      get_prop (Some novosDados) "categories" = Normal x -> truthy x = true ->
      serves c (DocSet DOC_PATH novosDados) = false ->
      served db fs PUT_api_menu (Some novosDados)
        (Normal (status_json 500 (erro "Erro ao gravar dados na base de dados.")))
        (Store.record (DocSet DOC_PATH novosDados) fs)
  | served_patch_threw c body :
      db = Some c -> get_prop body "isOpen" = Throw ->
      served db fs PATCH_api_status_loja body Throw fs
  | served_patch_invalid c body isOpen :
      db = Some c -> get_prop body "isOpen" = Normal isOpen ->
      as_boolean isOpen = None ->
      served db fs PATCH_api_status_loja body
        (Normal (status_json 400
           (erro "O campo 'isOpen' deve ser booleano (true ou false).")))
        fs
  | served_patch_applied c body b d :
      db = Some c -> get_prop body "isOpen" = Normal (Some (JBool b)) ->
      docs fs !! DOC_PATH = Some d ->
      serves c (DocUpdate DOC_PATH (isOpen_update b)) = true ->
      served db fs PATCH_api_status_loja body
        (Normal (json_ok (JObj {[ "mensagem" := JStr (loja_mensagem b);
                                  "estado" := JBool b ]})))
        (Firestore (<[ DOC_PATH := set_field isOpen_path (JBool b) (Some d) ]> (docs fs))
                   (DocUpdate DOC_PATH (isOpen_update b) :: calls fs))
  | served_patch_failed c body b :
      db = Some c -> get_prop body "isOpen" = Normal (Some (JBool b)) ->
      docs fs !! DOC_PATH = None \/
        serves c (DocUpdate DOC_PATH (isOpen_update b)) = false ->
      served db fs PATCH_api_status_loja body
        (Normal (status_json 500 (erro "Erro ao atualizar estado.")))
        (Store.record (DocUpdate DOC_PATH (isOpen_update b)) fs).

(** The status of the answer, if the handler answered. *)
Definition status_of (a : completion response) : option Z :=
  match a with
  | Normal resp => Some (status resp)
  | Throw => None
  end.

(** ** Sanity checks on concrete requests *)

Example split_settings_isOpen : split_dots "settings.isOpen" = isOpen_path.
Proof. reflexivity. Qed.

Example put_combo :
  fst (put_menu (Some healthy) (Some (JObj {[ "categories" := JArr [] ]})) empty_store)
  = Normal menu_updated.
Proof. vm_compute. reflexivity. Qed.

Example patch_open_adds_settings :
  docs (snd (patch_status_loja (Some healthy) (Some (JObj {[ "isOpen" := JBool true ]}))
               (Firestore {[ DOC_PATH := JObj {[ "categories" := JArr [] ]} ]} [])))
  = {[ DOC_PATH := JObj {[ "categories" := JArr [];
                           "settings" := JObj {[ "isOpen" := JBool true ]} ]} ]}.
Proof. vm_compute. reflexivity. Qed.

Example patch_yes_rejected :
  patch_status_loja (Some healthy) (Some (JObj {[ "isOpen" := JStr "yes" ]})) empty_store
  = (Normal (status_json 400
       (erro "O campo 'isOpen' deve ser booleano (true ou false).")), empty_store).
Proof. vm_compute. reflexivity. Qed.

Example patch_keeps_sibling_setting :
  (docs (snd (patch_status_loja (Some healthy) (Some (JObj {[ "isOpen" := JBool false ]}))
     (Firestore {[ DOC_PATH := JObj {[ "settings" :=
                     JObj {[ "isOpen" := JBool true; "taxa" := JStr "5" ]} ]} ]} [])))
     !! DOC_PATH) ≫= field_at ["settings"; "taxa"]
  = Some (JStr "5").
Proof. vm_compute. reflexivity. Qed.

Example patch_without_document_fails :
  fst (patch_status_loja (Some healthy) (Some (JObj {[ "isOpen" := JBool true ]}))
         empty_store)
  = Normal (status_json 500 (erro "Erro ao atualizar estado.")).
Proof. vm_compute. reflexivity. Qed.

Example put_array_body_rejected :
  put_menu (Some healthy) (Some (JArr [JStr "categories"])) empty_store
  = (Normal invalid_menu, empty_store).
Proof. vm_compute. reflexivity. Qed.

Example loja_aberta : loja_mensagem true = "Loja ABERTA com sucesso.".
Proof. reflexivity. Qed.

(** ** JavaScript values: basic facts *)

Lemma as_boolean_Some (v : jsval) (b : bool) :
  as_boolean v = Some b <-> v = Some (JBool b).
Proof.
  split.
  - destruct v as [[]|]; simpl; intros H; inversion H; reflexivity.
  - intros ->. reflexivity.
Qed.

Lemma as_boolean_typeof (v : jsval) :
  typeof v = "boolean" <-> is_Some (as_boolean v).
Proof.
  destruct v as [[]|]; simpl; split; intros H;
    try discriminate H; try (by inversion H); eauto.
Qed.

(** Falsy values are exactly the ones JavaScript lists. *)
Lemma falsy_cases (v : jsval) :
  truthy v = false <->
  v = undefined \/ v = Some JNull \/ v = Some (JBool false)
  \/ (exists s, v = Some (JNum (S754_zero s))) \/ v = Some (JNum S754_nan)
  \/ v = Some (JStr "").
Proof.
  split.
  - destruct v as [[| [] | [] | s | |]|]; simpl; intros H; try discriminate H;
      eauto 10.
    destruct s; [eauto 10 | discriminate H].
  - intros [-> | [-> | [-> | [[s ->] | [-> | ->]]]]]; reflexivity.
Qed.

(** A truthy value has properties to read: the read does not throw. *)
Lemma truthy_get_prop (v : jsval) (k : string) :
  truthy v = true -> exists x, get_prop v k = Normal x.
Proof.
  destruct v as [[]|]; simpl; intros H; try discriminate H; eauto.
Qed.

(** Only an object has a property named like a menu or status field. *)
Lemma get_prop_Some (v : jsval) (k : string) (x : json) :
  get_prop v k = Normal (Some x) -> exists m, v = Some (JObj m) /\ m !! k = Some x.
Proof.
  destruct v as [[]|]; simpl; intros H; inversion H; eauto.
Qed.

Lemma has_field_false (v : jsval) (k : string) :
  has_field k v = false ->
  truthy v = false \/ get_prop v k = Normal undefined.
Proof.
  destruct v as [[| [] | | | | m]|]; simpl; auto.
  destruct (m !! k); [discriminate | auto].
Qed.

(** ** Values over the wire *)

Lemma fold_andb_Forall {A} (f : A -> bool) (m : gmap string A) :
  map_fold (fun _ x acc => f x && acc) true m = true
  <-> map_Forall (fun _ x => f x = true) m.
Proof.
  apply (map_fold_weak_ind
           (fun r m => r = true <-> map_Forall (fun _ x => f x = true) m)).
  - split; [intros _; apply map_Forall_empty | reflexivity].
  - intros i x m' r Hi IH.
    rewrite map_Forall_insert by exact Hi.
    rewrite andb_true_iff, IH. reflexivity.
Qed.

Lemma fold_size_lookup {A} (g : A -> nat) (m : gmap string A) (k : string) (x : A) :
  m !! k = Some x ->
  (g x <= map_fold (fun _ y acc => (g y + acc)%nat) 0%nat m)%nat.
Proof.
  revert k x.
  apply (map_fold_weak_ind
           (fun r m => forall k x, m !! k = Some x -> (g x <= r)%nat)).
  - intros k x Hk. rewrite lookup_empty in Hk. discriminate Hk.
  - intros i y m' r Hi IH k x Hk.
    destruct (decide (i = k)) as [->|Hne].
    + rewrite lookup_insert_eq in Hk. inversion Hk; subst. lia.
    + rewrite lookup_insert_ne in Hk by exact Hne.
      specialize (IH k x Hk). lia.
Qed.

Lemma list_size_In (l : list json) (x : json) :
  In x l -> (json_size x <= list_sum (map json_size l))%nat.
Proof.
  induction l as [|y l IH]; intros Hin; [destruct Hin|].
  destruct Hin as [->|Hin]; simpl; [lia|]. specialize (IH Hin). lia.
Qed.

(** Induction on values: the elements of an array and the fields of an
    object come first. *)
Lemma json_nested_ind (P : json -> Prop) :
  P JNull ->
  (forall b, P (JBool b)) ->
  (forall x, P (JNum x)) ->
  (forall s, P (JStr s)) ->
  (forall l, Forall P l -> P (JArr l)) ->
  (forall m, map_Forall (fun _ x => P x) m -> P (JObj m)) ->
  forall v, P v.
Proof.
  intros Hnull Hbool Hnum Hstr Harr Hobj v.
  remember (json_size v) as n eqn:Hn. revert v Hn.
  induction n as [n IH] using lt_wf_ind. intros v ->.
  destruct v as [| b | x | s | l | m]; auto.
  - apply Harr. apply Forall_forall. intros x Hx.
    apply list_elem_of_In in Hx.
    apply (IH (json_size x)); [|reflexivity].
    pose proof (list_size_In l x Hx). simpl. lia.
  - apply Hobj. intros k x Hk.
    apply (IH (json_size x)); [|reflexivity].
    pose proof (fold_size_lookup json_size m k x Hk). simpl. lia.
Qed.

Lemma json_exact_obj (m : gmap string json) :
  json_exact (JObj m) = true <-> map_Forall (fun _ x => json_exact x = true) m.
Proof. apply (fold_andb_Forall json_exact). Qed.

(** A value without such numbers is read by the client as it was sent. *)
Lemma wire_exact (v : json) : json_exact v = true -> wire v = v.
Proof.
  induction v as [| b | x | s | l IH | m IH] using json_nested_ind;
    try reflexivity.
  - destruct x as [[]| | |]; simpl; intros H; try discriminate H; reflexivity.
  - simpl. intros H. f_equal.
    rewrite forallb_forall in H. rewrite Forall_forall in IH.
    rewrite <- (map_id l) at 2. apply map_ext_in.
    intros x Hx. apply IH; [by apply list_elem_of_In | by apply H].
  - intros H. apply json_exact_obj in H. cbn [wire]. f_equal.
    apply map_eq. intros k. rewrite lookup_fmap.
    destruct (m !! k) as [x|] eqn:Hk; [|reflexivity].
    simpl. f_equal. apply (IH k x Hk). by apply (H k x).
Qed.

(** Writing an exact value into an exact document keeps it exact. *)
Lemma json_exact_set_field (p : list string) (v : json) :
  json_exact v = true ->
  forall d : jsval,
    (forall x, d = Some x -> json_exact x = true) ->
    json_exact (set_field p v d) = true.
Proof.
  intros Hv. induction p as [|k p IH]; intros d Hd; [exact Hv|].
  cbn [set_field]. apply json_exact_obj.
  assert (map_Forall (fun _ x => json_exact x = true)
            (match d with Some (JObj m) => m | _ => ∅ end)) as Hm.
  { destruct d as [[| | | | | m]|]; try apply map_Forall_empty.
    apply json_exact_obj. by apply Hd. }
  apply map_Forall_insert_2; [|exact Hm].
  apply IH. intros x Hx. by apply (Hm k x).
Qed.

(** ** Field paths *)

Lemma field_at_set_field_same (q : list string) (v : json) (d : jsval) :
  field_at q (set_field q v d) = Some v.
Proof.
  revert d. induction q as [|k q IH]; intros d; simpl; [reflexivity|].
  rewrite lookup_insert_eq. simpl. apply IH.
Qed.

(** Writing at [q] is not seen at a path that neither contains [q] nor
    lies inside it. *)
Lemma field_at_set_field_frame (q : list string) (v : json) :
  forall (d : jsval) (p : list string),
    ~ p `prefix_of` q -> ~ q `prefix_of` p ->
    field_at p (set_field q v d) = d ≫= field_at p.
Proof.
  induction q as [|k q IH]; intros d p Hpq Hqp.
  - exfalso. apply Hqp, prefix_nil.
  - destruct p as [|k' p].
    + exfalso. apply Hpq, prefix_nil.
    + simpl. destruct (decide (k = k')) as [<-|Hne].
      * rewrite lookup_insert_eq. simpl.
        rewrite IH.
        -- destruct d as [[]|]; simpl; try rewrite lookup_empty; reflexivity.
        -- intros H. apply Hpq. by apply prefix_cons.
        -- intros H. apply Hqp. by apply prefix_cons.
      * rewrite lookup_insert_ne by exact Hne.
        destruct d as [[]|]; simpl; try rewrite lookup_empty; reflexivity.
Qed.

(** On a document whose [settings] is a map, the write replaces one entry
    of that map and nothing else. *)
Lemma set_field_isOpen_settings (m s : gmap string json) (v : json) :
  m !! "settings" = Some (JObj s) ->
  set_field isOpen_path v (Some (JObj m))
  = JObj (<[ "settings" := JObj (<[ "isOpen" := v ]> s) ]> m).
Proof. intros H. simpl. rewrite H. reflexivity. Qed.

(** ** The store *)

Lemma fetch_docs (c : client) (path : string) (fs : firestore) :
  docs (snd (Store.fetch c path fs)) = docs fs.
Proof. unfold Store.fetch. destruct (serves c _); reflexivity. Qed.

Lemma fetch_calls (c : client) (path : string) (fs : firestore) :
  calls (snd (Store.fetch c path fs)) = DocGet path :: calls fs.
Proof. unfold Store.fetch. destruct (serves c _); reflexivity. Qed.

Lemma replace_then_fetch (c : client) (path : string) (data : json) (fs fs1 : firestore) :
  Store.replace c path data fs = (Resolved tt, fs1) ->
  serves c (DocGet path) = true ->
  fst (Store.fetch c path fs1) = Resolved (Some data).
Proof.
  unfold Store.replace, Store.fetch. intros H Hget. rewrite Hget.
  destruct (serves c (DocSet path data)); inversion H; subst; simpl.
  by rewrite lookup_insert_eq.
Qed.

Lemma patchField_isOpen (c : client) (path : string) (b : bool)
    (fs : firestore) (d : json) :
  docs fs !! path = Some d ->
  serves c (DocUpdate path (isOpen_update b)) = true ->
  Store.patchField c path (isOpen_update b) fs
  = (Resolved tt,
     Firestore (<[ path := set_field isOpen_path (JBool b) (Some d) ]> (docs fs))
               (DocUpdate path (isOpen_update b) :: calls fs)).
Proof.
  intros Hd Hs. unfold Store.patchField. rewrite Hd, Hs.
  unfold isOpen_update. rewrite map_fold_singleton. reflexivity.
Qed.

(** A rejected call leaves every document as it was. *)
Lemma patchField_rejected (c : client) (path : string)
    (fields : gmap string json) (fs fs1 : firestore) :
  Store.patchField c path fields fs = (Rejected, fs1) -> docs fs1 = docs fs.
Proof.
  unfold Store.patchField.
  destruct (docs fs !! path); [destruct (serves c _)|]; intros H;
    inversion H; reflexivity.
Qed.

(** ** The routes: shared facts *)

Lemma no_db_is_500 : status no_db = 500 /\ is_error_body (content no_db).
Proof. split; [reflexivity | eexists; reflexivity]. Qed.

Lemma invalid_menu_is_400 :
  status invalid_menu = 400 /\ is_error_body (content invalid_menu).
Proof. split; [reflexivity | eexists; reflexivity]. Qed.

(** Unfold a handler and the store operation it calls. *)
Ltac run_handler :=
  unfold dispatch, get_root, get_menu, put_menu, patch_status_loja,
    Store.fetch, Store.replace, Store.patchField, Store.record.

(** The replace route with a configured client, on a body that fails the
    check of [categories]: rejected before the store is touched. *)
Lemma put_menu_invalid (c : client) (body : jsval) (fs : firestore) :
  truthy body = false \/
    (exists x, get_prop body "categories" = Normal x /\ truthy x = false) ->
  put_menu (Some c) body fs = (Normal invalid_menu, fs).
Proof.
  intros H. unfold put_menu. destruct body as [novosDados|]; [|reflexivity].
  destruct (truthy (Some novosDados)) eqn:Ht; cbn [negb].
  - destruct H as [H | (x & Hx & Hf)]; [discriminate H|].
    rewrite Hx, Hf. reflexivity.
  - reflexivity.
Qed.

(** The replace route with a configured client, on a body that passes the
    check: one [set] call with the body itself. *)
Lemma put_menu_valid (c : client) (novosDados : json) (x : jsval) (fs : firestore) :
  get_prop (Some novosDados) "categories" = Normal x -> truthy x = true ->
  put_menu (Some c) (Some novosDados) fs
  = match Store.replace c DOC_PATH novosDados fs with
    | (Resolved _, fs') => (Normal menu_updated, fs')
    | (Rejected, fs') =>
        (Normal (status_json 500 (erro "Erro ao gravar dados na base de dados.")), fs')
    end.
Proof.
  intros Hx Ht. unfold put_menu.
  destruct (get_prop_Some (Some novosDados) "categories") with (x := default JNull x)
    as (m & Hm & _).
  { rewrite Hx. destruct x; [reflexivity | discriminate Ht]. }
  rewrite Hm in *. simpl in *. inversion Hx; subst. rewrite Ht. reflexivity.
Qed.

(** The status route with a configured client and a boolean [isOpen]: one
    [update] call naming the single field. *)
Lemma patch_status_loja_boolean (c : client) (body : jsval) (b : bool) (fs : firestore) :
  get_prop body "isOpen" = Normal (Some (JBool b)) ->
  patch_status_loja (Some c) body fs
  = match Store.patchField c DOC_PATH (isOpen_update b) fs with
    | (Resolved _, fs') =>
        (Normal (json_ok (JObj {[ "mensagem" := JStr (loja_mensagem b);
                                  "estado" := JBool b ]})), fs')
    | (Rejected, fs') =>
        (Normal (status_json 500 (erro "Erro ao atualizar estado.")), fs')
    end.
Proof. intros H. unfold patch_status_loja. rewrite H. reflexivity. Qed.

(** Without a body ([req.body] left [undefined]) the destructuring of the
    status route throws before any answer is sent. *)
Lemma patch_status_loja_no_body (c : client) (fs : firestore) :
  patch_status_loja (Some c) undefined fs = (Throw, fs).
Proof. reflexivity. Qed.

(** No route ever writes a document other than the one at [DOC_PATH]. *)
Lemma dispatch_other_documents (db : option client) (r : route) (body : jsval)
    (fs : firestore) (path : string) :
  path <> DOC_PATH ->
  docs (snd (dispatch db r body fs)) !! path = docs fs !! path.
Proof.
  intros Hne. destruct r, db as [c|]; try reflexivity; cbn [dispatch].
  - unfold get_menu. pose proof (fetch_docs c DOC_PATH fs) as H.
    destruct (Store.fetch c DOC_PATH fs) as [[[d|]|] fs']; simpl in *;
      by rewrite H.
  - unfold put_menu. destruct body as [novosDados|]; [|reflexivity].
    destruct (truthy (Some novosDados)); cbn [negb]; [|reflexivity].
    destruct (get_prop _ _) as [x|]; [|reflexivity].
    destruct (truthy x); cbn [negb]; [|reflexivity].
    unfold Store.replace, Store.record.
    destruct (serves c _); cbn; [|reflexivity].
    by rewrite lookup_insert_ne.
  - unfold patch_status_loja.
    destruct (get_prop _ _) as [x|]; [|reflexivity].
    destruct (as_boolean x); [|reflexivity].
    unfold Store.patchField, Store.record.
    destruct (docs fs !! DOC_PATH); [destruct (serves c _)|]; cbn;
      try reflexivity.
    by rewrite lookup_insert_ne.
Qed.

(** ** The contract of the routes *)

(** C8: for every request, [GET /] answers 200 with one fixed text message
    sent with [res.send], whatever the database handle, the request body
    and the stored documents are; the store is left as it was and no call
    reaches it. *)
Theorem get_root_unconditional (db : option client) (body : jsval) (fs : firestore) :
  dispatch db GET_root body fs
  = (Normal (Response 200 (Text "Backend Disk Marmitas está Online! 🚀")), fs).
Proof. reflexivity. Qed.

(** C4: with no database handle, each of the three database-backed routes
    answers 500 with an error body, for every request body and store
    state, and the store (its documents and the calls it received) is
    untouched. *)
Theorem no_database_every_route_500 (r : route) (body : jsval) (fs : firestore) :
  database_backed r = true ->
  exists resp,
    dispatch None r body fs = (Normal resp, fs)
    /\ status resp = 500
    /\ is_error_body (content resp)
    /\ calls (snd (dispatch None r body fs)) = calls fs.
Proof.
  intros Hr. exists no_db.
  destruct r; [discriminate Hr | | |]; cbn;
    (split; [reflexivity | split; [reflexivity | split; [|reflexivity]]]);
    eexists; reflexivity.
Qed.

Lemma no_database_every_route_500_witness :
  exists resp,
    dispatch None PATCH_api_status_loja undefined empty_store
    = (Normal resp, empty_store)
    /\ status resp = 500
    /\ is_error_body (content resp)
    /\ calls (snd (dispatch None PATCH_api_status_loja undefined empty_store))
       = calls empty_store.
Proof.
  apply (no_database_every_route_500 PATCH_api_status_loja undefined empty_store).
  reflexivity.
Defined.

(** C5: [GET /api/menu] answers 500 with an error body when no database
    handle is configured; with a handle, 404 with an error body when the
    fetch finds no document at the fixed path, 500 with an error body when
    the fetch fails, and 200 with the document exactly as stored when it
    is found, whatever fields the document has. *)
Theorem get_menu_cases (fs : firestore) :
  (exists resp, get_menu None fs = (Normal resp, fs)
     /\ status resp = 500 /\ is_error_body (content resp))
  /\ (forall c, serves c (DocGet DOC_PATH) = true -> docs fs !! DOC_PATH = None ->
       exists resp, fst (get_menu (Some c) fs) = Normal resp
         /\ status resp = 404 /\ is_error_body (content resp))
  /\ (forall c, serves c (DocGet DOC_PATH) = false ->
       exists resp, fst (get_menu (Some c) fs) = Normal resp
         /\ status resp = 500 /\ is_error_body (content resp))
  /\ (forall c d, serves c (DocGet DOC_PATH) = true -> docs fs !! DOC_PATH = Some d ->
       fst (get_menu (Some c) fs) = Normal (Response 200 (Json d))).
Proof.
  repeat split.
  - exists no_db. repeat split. eexists; reflexivity.
  - intros c Hs Hd. run_handler. rewrite Hs, Hd.
    eexists. repeat split. eexists; reflexivity.
  - intros c Hs. run_handler. rewrite Hs.
    eexists. repeat split. eexists; reflexivity.
  - intros c d Hs Hd. run_handler. rewrite Hs, Hd. reflexivity.
Qed.

Lemma get_menu_cases_witness :
  (exists resp, fst (get_menu (Some healthy) empty_store) = Normal resp
     /\ status resp = 404 /\ is_error_body (content resp))
  /\ (exists resp, fst (get_menu (Some unreachable) empty_store) = Normal resp
     /\ status resp = 500 /\ is_error_body (content resp))
  /\ fst (get_menu (Some healthy)
            (Firestore {[ DOC_PATH := JObj {[ "settings" := JObj ∅ ]} ]} []))
     = Normal (Response 200 (Json (JObj {[ "settings" := JObj ∅ ]}))).
Proof.
  split; [|split].
  - apply (get_menu_cases empty_store); reflexivity.
  - apply (get_menu_cases empty_store); reflexivity.
  - apply (get_menu_cases (Firestore {[ DOC_PATH := JObj {[ "settings" := JObj ∅ ]} ]} []));
      reflexivity.
Defined.

(** C7: a status patch with a boolean [isOpen] that the store applies is
    answered with 200 and a body whose [estado] is the request's [isOpen]
    and whose [mensagem] names the new state: "Loja ABERTA com sucesso."
    for [true], "Loja FECHADA com sucesso." for [false]. *)
Theorem patch_success_response (c : client) (body : jsval) (b : bool)
    (fs : firestore) (d : json) :
  get_prop body "isOpen" = Normal (Some (JBool b)) ->
  docs fs !! DOC_PATH = Some d ->
  serves c (DocUpdate DOC_PATH {[ "settings.isOpen" := JBool b ]}) = true ->
  fst (patch_status_loja (Some c) body fs)
  = Normal (Response 200 (Json (JObj
      {[ "mensagem" := JStr (if b then "Loja ABERTA com sucesso."
                             else "Loja FECHADA com sucesso.");
         "estado" := JBool b ]}))).
Proof.
  intros Hb Hd Hs.
  rewrite (patch_status_loja_boolean c body b fs Hb).
  rewrite (patchField_isOpen c DOC_PATH b fs d Hd Hs).
  destruct b; reflexivity.
Qed.

Lemma patch_success_response_witness :
  fst (patch_status_loja (Some healthy) (Some (JObj {[ "isOpen" := JBool true ]}))
         (Firestore {[ DOC_PATH := JObj {[ "categories" := JArr [] ]} ]} []))
  = Normal (Response 200 (Json (JObj
      {[ "mensagem" := JStr "Loja ABERTA com sucesso."; "estado" := JBool true ]}))).
Proof.
  apply (patch_success_response healthy (Some (JObj {[ "isOpen" := JBool true ]})) true
           (Firestore {[ DOC_PATH := JObj {[ "categories" := JArr [] ]} ]} [])
           (JObj {[ "categories" := JArr [] ]}));
    reflexivity.
Defined.

(** C3: after a status patch with a boolean [isOpen] that the store
    applies, the document at the fixed path holds the boolean at
    [settings.isOpen] and is otherwise as before: every field path that
    neither leads to [settings.isOpen] nor lies below it reads the same
    value as in the prior document, and every other document of the store
    is unchanged. *)
Theorem patch_changes_only_isOpen (c : client) (body : jsval) (b : bool)
    (fs : firestore) (d : json) :
  get_prop body "isOpen" = Normal (Some (JBool b)) ->
  docs fs !! DOC_PATH = Some d ->
  serves c (DocUpdate DOC_PATH {[ "settings.isOpen" := JBool b ]}) = true ->
  exists d',
    docs (snd (patch_status_loja (Some c) body fs)) = <[ DOC_PATH := d' ]> (docs fs)
    /\ field_at ["settings"; "isOpen"] d' = Some (JBool b)
    /\ forall p : list string,
         ~ p `prefix_of` ["settings"; "isOpen"] ->
         ~ ["settings"; "isOpen"] `prefix_of` p ->
         field_at p d' = field_at p d.
Proof.
  intros Hb Hd Hs.
  exists (set_field isOpen_path (JBool b) (Some d)).
  rewrite (patch_status_loja_boolean c body b fs Hb).
  rewrite (patchField_isOpen c DOC_PATH b fs d Hd Hs).
  split; [reflexivity | split].
  - apply field_at_set_field_same.
  - intros p H1 H2.
    apply (field_at_set_field_frame isOpen_path (JBool b) (Some d) p H1 H2).
Qed.

Lemma patch_changes_only_isOpen_witness :
  exists d',
    docs (snd (patch_status_loja (Some healthy)
                 (Some (JObj {[ "isOpen" := JBool false ]}))
                 (Firestore {[ DOC_PATH :=
                     JObj {[ "categories" := JArr [];
                             "settings" := JObj {[ "isOpen" := JBool true;
                                                   "taxa" := JStr "5" ]} ]} ]} [])))
    = <[ DOC_PATH := d' ]>
        {[ DOC_PATH :=
             JObj {[ "categories" := JArr [];
                     "settings" := JObj {[ "isOpen" := JBool true;
                                           "taxa" := JStr "5" ]} ]} ]}
    /\ field_at ["settings"; "isOpen"] d' = Some (JBool false)
    /\ forall p : list string,
         ~ p `prefix_of` ["settings"; "isOpen"] ->
         ~ ["settings"; "isOpen"] `prefix_of` p ->
         field_at p d'
         = field_at p (JObj {[ "categories" := JArr [];
                               "settings" := JObj {[ "isOpen" := JBool true;
                                                     "taxa" := JStr "5" ]} ]}).
Proof.
  refine (patch_changes_only_isOpen healthy
           (Some (JObj {[ "isOpen" := JBool false ]})) false
           (Firestore {[ DOC_PATH :=
               JObj {[ "categories" := JArr [];
                       "settings" := JObj {[ "isOpen" := JBool true;
                                             "taxa" := JStr "5" ]} ]} ]} [])
           (JObj {[ "categories" := JArr [];
                    "settings" := JObj {[ "isOpen" := JBool true;
                                          "taxa" := JStr "5" ]} ]})
           _ _ _);
    reflexivity.
Defined.

(** C10: a status patch with a boolean [isOpen] that the store applies
    sends the store one call, an update whose only field is
    [settings.isOpen]; the document it leaves is determined by the stored
    document and the boolean alone, so that two request bodies with the
    same [isOpen] leave the same store whatever else they carry. *)
Theorem patch_writes_single_field (c : client) (body : jsval) (b : bool)
    (fs : firestore) (d : json) :
  get_prop body "isOpen" = Normal (Some (JBool b)) ->
  docs fs !! DOC_PATH = Some d ->
  serves c (DocUpdate DOC_PATH {[ "settings.isOpen" := JBool b ]}) = true ->
  calls (snd (patch_status_loja (Some c) body fs))
  = DocUpdate DOC_PATH {[ "settings.isOpen" := JBool b ]} :: calls fs
  /\ docs (snd (patch_status_loja (Some c) body fs))
     = <[ DOC_PATH := set_field ["settings"; "isOpen"] (JBool b) (Some d) ]> (docs fs)
  /\ forall body' : jsval,
       get_prop body' "isOpen" = Normal (Some (JBool b)) ->
       patch_status_loja (Some c) body' fs = patch_status_loja (Some c) body fs.
Proof.
  intros Hb Hd Hs.
  rewrite (patch_status_loja_boolean c body b fs Hb).
  rewrite (patchField_isOpen c DOC_PATH b fs d Hd Hs).
  split; [reflexivity | split; [reflexivity|]].
  intros body' Hb'.
  rewrite (patch_status_loja_boolean c body' b fs Hb').
  rewrite (patchField_isOpen c DOC_PATH b fs d Hd Hs). reflexivity.
Qed.

Lemma patch_writes_single_field_witness :
  calls (snd (patch_status_loja (Some healthy)
                (Some (JObj {[ "isOpen" := JBool true; "categories" := JNull ]}))
                (Firestore {[ DOC_PATH := JObj {[ "categories" := JArr [] ]} ]} [])))
  = [DocUpdate DOC_PATH {[ "settings.isOpen" := JBool true ]}]
  /\ docs (snd (patch_status_loja (Some healthy)
                  (Some (JObj {[ "isOpen" := JBool true; "categories" := JNull ]}))
                  (Firestore {[ DOC_PATH := JObj {[ "categories" := JArr [] ]} ]} [])))
     = {[ DOC_PATH := JObj {[ "categories" := JArr [];
                              "settings" := JObj {[ "isOpen" := JBool true ]} ]} ]}.
Proof.
  destruct (patch_writes_single_field healthy
              (Some (JObj {[ "isOpen" := JBool true; "categories" := JNull ]})) true
              (Firestore {[ DOC_PATH := JObj {[ "categories" := JArr [] ]} ]} [])
              (JObj {[ "categories" := JArr [] ]}))
    as (Hcalls & Hdocs & _); [reflexivity .. |].
  split; [exact Hcalls|].
  rewrite Hdocs. vm_compute. reflexivity.
Defined.

(** C1, as stated, fails: a body whose [categories] field is present but
    falsy (here [null]) is rejected with 400 by a healthy, configured
    client, and nothing is stored. *)
Lemma put_present_null_categories_rejected :
  has_field "categories" (Some (JObj {[ "categories" := JNull ]})) = true
  /\ put_menu (Some healthy) (Some (JObj {[ "categories" := JNull ]})) empty_store
     = (Normal (Response 400 (content invalid_menu)), empty_store)
  /\ ~ roundtrip healthy (JObj {[ "categories" := JNull ]}) empty_store.
Proof.
  split; [reflexivity | split; [reflexivity|]].
  intros (fs1 & Hput & _). discriminate Hput.
Qed.

(** What the fetch after a served replace hands to [res.json], and what
    the client then reads: the payload as [JSON.stringify] renders it. *)
Lemma put_then_get_wire (c : client) (novosDados : json) (categories : jsval)
    (fs : firestore) :
  get_prop (Some novosDados) "categories" = Normal categories ->
  truthy categories = true ->
  serves c (DocSet DOC_PATH novosDados) = true ->
  serves c (DocGet DOC_PATH) = true ->
  exists fs1,
    put_menu (Some c) (Some novosDados) fs = (Normal menu_updated, fs1)
    /\ fst (get_menu (Some c) fs1) = Normal (json_ok novosDados)
    /\ received (content (json_ok novosDados)) = Json (wire novosDados).
Proof.
  intros Hc Ht Hset Hget.
  rewrite (put_menu_valid c novosDados categories fs Hc Ht).
  destruct (Store.replace c DOC_PATH novosDados fs) as [[[]|] fs1] eqn:Hrep.
  - exists fs1. split; [reflexivity | split; [|reflexivity]].
    unfold get_menu.
    pose proof (replace_then_fetch c DOC_PATH novosDados fs fs1 Hrep Hget) as Hf.
    destruct (Store.fetch c DOC_PATH fs1) as [res fs2]. simpl in Hf. subst res.
    reflexivity.
  - unfold Store.replace in Hrep. rewrite Hset in Hrep. discriminate Hrep.
Qed.

(** A payload with a truthy but non-finite [categories] (the body
    [{"categories": 1e400}] parses to [Infinity]) is accepted and stored,
    and the fetch that follows is answered 200, but the client reads
    [{"categories": null}]: the round trip is not exact. *)
Lemma put_infinity_not_returned :
  put_menu (Some healthy)
    (Some (JObj {[ "categories" := JNum (S754_infinity false) ]})) empty_store
  = (Normal menu_updated,
     Firestore {[ DOC_PATH := JObj {[ "categories" := JNum (S754_infinity false) ]} ]}
       [DocSet DOC_PATH (JObj {[ "categories" := JNum (S754_infinity false) ]})])
  /\ received (content (json_ok (JObj {[ "categories" := JNum (S754_infinity false) ]})))
     = Json (JObj {[ "categories" := JNull ]})
  /\ ~ roundtrip healthy (JObj {[ "categories" := JNum (S754_infinity false) ]})
        empty_store.
Proof.
  split; [vm_compute; reflexivity | split; [vm_compute; reflexivity|]].
  intros (fs1 & Hput & resp & Hget & _ & Hrec).
  vm_compute in Hput. inversion Hput; subst fs1. clear Hput.
  vm_compute in Hget. inversion Hget; subst resp. clear Hget.
  vm_compute in Hrec. discriminate Hrec.
Qed.

(** C1 (amended): for every request body whose [categories] field is
    truthy and which holds no number that JSON cannot carry (no
    [Infinity], [NaN] or negative zero), with a configured client whose
    [set] and [get] calls on the fixed path are served, [PUT /api/menu]
    answers 200 with the confirmation and a [GET /api/menu] that follows,
    no other writer in between, answers 200 with a body that the client
    reads as exactly that payload. *)
Theorem put_then_get_roundtrip (c : client) (novosDados : json) (categories : jsval)
    (fs : firestore) :
  get_prop (Some novosDados) "categories" = Normal categories ->
  truthy categories = true ->
  json_exact novosDados = true ->
  serves c (DocSet DOC_PATH novosDados) = true ->
  serves c (DocGet DOC_PATH) = true ->
  status menu_updated = 200
  /\ exists fs1,
       put_menu (Some c) (Some novosDados) fs = (Normal menu_updated, fs1)
       /\ exists resp,
            fst (get_menu (Some c) fs1) = Normal resp
            /\ status resp = 200
            /\ received (content resp) = Json novosDados.
Proof.
  intros Hc Ht Hex Hset Hget. split; [reflexivity|].
  destruct (put_then_get_wire c novosDados categories fs Hc Ht Hset Hget)
    as (fs1 & Hput & Hfetch & Hrec).
  exists fs1. split; [exact Hput|].
  exists (json_ok novosDados). split; [exact Hfetch | split; [reflexivity|]].
  rewrite Hrec, (wire_exact novosDados Hex). reflexivity.
Qed.

Lemma put_then_get_roundtrip_witness :
  status menu_updated = 200
  /\ exists fs1,
       put_menu (Some healthy)
         (Some (JObj {[ "categories" := JArr [JObj {[ "name" := JStr "Combo" ]}] ]}))
         empty_store
       = (Normal menu_updated, fs1)
       /\ exists resp,
            fst (get_menu (Some healthy) fs1) = Normal resp
            /\ status resp = 200
            /\ received (content resp)
               = Json (JObj {[ "categories" := JArr [JObj {[ "name" := JStr "Combo" ]}] ]}).
Proof.
  refine (put_then_get_roundtrip healthy
            (JObj {[ "categories" := JArr [JObj {[ "name" := JStr "Combo" ]}] ]})
            (Some (JArr [JObj {[ "name" := JStr "Combo" ]}]))
            empty_store _ _ _ _ _);
    reflexivity.
Defined.

(** C2, as stated, fails: with no database handle the replace route
    answers 500, not 400, to a body without [categories]. *)
Lemma put_empty_object_no_database :
  has_field "categories" (Some (JObj ∅)) = false
  /\ put_menu None (Some (JObj ∅)) empty_store
     = (Normal (Response 500 (content no_db)), empty_store).
Proof. split; reflexivity. Qed.

(** C2 (amended): for every [PUT /api/menu] whose body is missing or has
    no [categories] field, the store is never invoked and the stored
    documents are unchanged; the answer is 400 with an error body when a
    database handle is configured, and 500 with an error body when none
    is. *)
Theorem put_without_categories_rejected (db : option client) (body : jsval)
    (fs : firestore) :
  has_field "categories" body = false ->
  exists resp,
    put_menu db body fs = (Normal resp, fs)
    /\ status resp = match db with Some _ => 400 | None => 500 end
    /\ is_error_body (content resp).
Proof.
  intros Hf. destruct db as [c|].
  - exists invalid_menu. split; [|apply invalid_menu_is_400].
    apply put_menu_invalid.
    destruct (has_field_false body "categories" Hf) as [H|H]; [by left|].
    right. exists undefined. split; [exact H | reflexivity].
  - exists no_db. split; [reflexivity | apply no_db_is_500].
Qed.

Lemma put_without_categories_rejected_witness :
  exists resp,
    put_menu (Some healthy) (Some (JObj ∅)) empty_store = (Normal resp, empty_store)
    /\ status resp = 400
    /\ is_error_body (content resp).
Proof.
  apply (put_without_categories_rejected (Some healthy) (Some (JObj ∅)) empty_store).
  reflexivity.
Defined.

(** C9, as stated, fails: with no database handle the replace route
    answers 500, not 400, to a body whose [categories] is [false]. *)
Lemma put_false_categories_no_database :
  has_field "categories" (Some (JObj {[ "categories" := JBool false ]})) = true
  /\ truthy (Some (JBool false)) = false
  /\ put_menu None (Some (JObj {[ "categories" := JBool false ]})) empty_store
     = (Normal (Response 500 (content no_db)), empty_store).
Proof. repeat split. Qed.

(** C9 (amended): when a database handle is configured, every
    [PUT /api/menu] whose body has a [categories] field with a falsy value
    ([false], [0], the empty string, [null]) is answered 400 with an error
    body, although the field is present, and the store is never invoked. *)
Theorem put_falsy_categories_rejected (c : client) (m : gmap string json) (v : json)
    (fs : firestore) :
  m !! "categories" = Some v ->
  truthy (Some v) = false ->
  has_field "categories" (Some (JObj m)) = true
  /\ exists resp,
       put_menu (Some c) (Some (JObj m)) fs = (Normal resp, fs)
       /\ status resp = 400
       /\ is_error_body (content resp).
Proof.
  intros Hm Hv. split.
  - simpl. rewrite Hm. reflexivity.
  - exists invalid_menu. split; [|apply invalid_menu_is_400].
    apply put_menu_invalid. right. exists (Some v). simpl. rewrite Hm. auto.
Qed.

Lemma put_falsy_categories_rejected_witness :
  has_field "categories" (Some (JObj {[ "categories" := JNum (S754_zero false) ]})) = true
  /\ exists resp,
       put_menu (Some healthy) (Some (JObj {[ "categories" := JNum (S754_zero false) ]}))
         empty_store
       = (Normal resp, empty_store)
       /\ status resp = 400
       /\ is_error_body (content resp).
Proof.
  refine (put_falsy_categories_rejected healthy
            {[ "categories" := JNum (S754_zero false) ]} (JNum (S754_zero false))
            empty_store _ _);
    reflexivity.
Defined.

(** C6, as stated, fails: with no database handle the status route
    answers 500, not 400, to a body whose [isOpen] is the string "true". *)
Lemma patch_string_isOpen_no_database :
  typeof (Some (JStr "true")) <> "boolean"
  /\ patch_status_loja None (Some (JObj {[ "isOpen" := JStr "true" ]})) empty_store
     = (Normal (Response 500 (content no_db)), empty_store).
Proof. split; [discriminate | reflexivity]. Qed.

(** C6 (amended): when a database handle is configured and the request
    has a body (an object, array or other non-null value), every
    [PATCH /api/status-loja] whose [isOpen] is not of boolean type (a
    string, a number, or the field omitted) is answered 400 with an error
    body; the store is never invoked and the stored documents are
    unchanged. *)
Theorem patch_non_boolean_rejected (c : client) (body isOpen : jsval)
    (fs : firestore) :
  get_prop body "isOpen" = Normal isOpen ->
  typeof isOpen <> "boolean" ->
  exists resp,
    patch_status_loja (Some c) body fs = (Normal resp, fs)
    /\ status resp = 400
    /\ is_error_body (content resp).
Proof.
  intros Hb Ht. unfold patch_status_loja. rewrite Hb.
  destruct (as_boolean isOpen) as [b|] eqn:Hab.
  - exfalso. apply Ht. apply as_boolean_typeof. eauto.
  - eexists. split; [reflexivity | split; [reflexivity | eexists; reflexivity]].
Qed.

Lemma patch_non_boolean_rejected_witness :
  (exists resp,
     patch_status_loja (Some healthy) (Some (JObj {[ "isOpen" := JStr "true" ]}))
       empty_store
     = (Normal resp, empty_store)
     /\ status resp = 400 /\ is_error_body (content resp))
  /\ (exists resp,
     patch_status_loja (Some healthy)
       (Some (JObj {[ "isOpen" := JNum (S754_finite false 4503599627370496 (-52)) ]}))
       empty_store
     = (Normal resp, empty_store)
     /\ status resp = 400 /\ is_error_body (content resp))
  /\ (exists resp,
     patch_status_loja (Some healthy) (Some (JObj ∅)) empty_store
     = (Normal resp, empty_store)
     /\ status resp = 400 /\ is_error_body (content resp)).
Proof.
  split; [|split].
  - refine (patch_non_boolean_rejected healthy _ (Some (JStr "true")) empty_store _ _);
      [reflexivity | discriminate].
  - refine (patch_non_boolean_rejected healthy _
              (Some (JNum (S754_finite false 4503599627370496 (-52)))) empty_store _ _);
      [reflexivity | discriminate].
  - refine (patch_non_boolean_rejected healthy _ undefined empty_store _ _);
      [reflexivity | discriminate].
Defined.

(** ** Every way a request is served *)

(** The handlers serve a request in one of the ways of [served]. *)
Lemma dispatch_served (db : option client) (r : route) (body : jsval) (fs : firestore) :
  served db fs r body (dispatch db r body fs).1 (dispatch db r body fs).2.
Proof.
  destruct r; cbn [dispatch]; [apply served_root | | |];
    (destruct db as [c|]; [|by apply served_no_db]).
  - unfold get_menu, Store.fetch.
    destruct (serves c (DocGet DOC_PATH)) eqn:Hs.
    + destruct (docs fs !! DOC_PATH) as [d|] eqn:Hd; simpl.
      * by apply served_get_found with c.
      * by apply served_get_absent with c.
    + by apply served_get_failed with c.
  - unfold put_menu. destruct body as [novosDados|].
    2: { apply served_put_invalid with c; auto. }
    destruct (truthy (Some novosDados)) eqn:Ht; cbn [negb].
    2: { apply served_put_invalid with c; auto. }
    destruct (truthy_get_prop (Some novosDados) "categories" Ht) as [x Hx].
    rewrite Hx. destruct (truthy x) eqn:Hxt; cbn [negb].
    2: { apply served_put_invalid with c; eauto. }
    unfold Store.replace.
    destruct (serves c (DocSet DOC_PATH novosDados)) eqn:Hs; simpl.
    + by apply served_put_stored with c x.
    + by apply served_put_failed with c x.
  - unfold patch_status_loja.
    destruct (get_prop body "isOpen") as [isOpen|] eqn:Hg.
    2: { by apply served_patch_threw with c. }
    destruct (as_boolean isOpen) as [b|] eqn:Hb.
    2: { by apply served_patch_invalid with c isOpen. }
    apply as_boolean_Some in Hb. subst isOpen.
    fold (isOpen_update b).
    destruct (docs fs !! DOC_PATH) as [d|] eqn:Hd.
    + destruct (serves c (DocUpdate DOC_PATH (isOpen_update b))) eqn:Hs.
      * rewrite (patchField_isOpen c DOC_PATH b fs d Hd Hs). simpl.
        by apply served_patch_applied with c.
      * unfold Store.patchField. rewrite Hd, Hs. simpl.
        apply served_patch_failed with c; auto.
    + unfold Store.patchField. rewrite Hd. simpl.
      apply served_patch_failed with c; auto.
Qed.

(** Case analysis on the way the request at hand is served. *)
Ltac serve_cases db r body fs :=
  let H := fresh "Hserved" in
  pose proof (dispatch_served db r body fs) as H;
  destruct (dispatch db r body fs) as [? ?]; simpl in *;
  inversion H; subst; clear H.

Lemma has_categories_get_prop (d : json) :
  has_categories d = true <->
  exists x, get_prop (Some d) "categories" = Normal x /\ truthy x = true.
Proof.
  split.
  - destruct d; simpl; intros H; try discriminate H. eauto.
  - intros (x & Hx & Ht). destruct d; simpl in *; inversion Hx; subst;
      try discriminate Ht. exact Ht.
Qed.

Lemma has_categories_truthy (d : json) :
  has_categories d = true -> truthy (Some d) = true.
Proof. destruct d; simpl; intros H; try discriminate H; reflexivity. Qed.

(** A later write of the same field replaces an earlier one. *)
Lemma set_field_overwrite (q : list string) (v1 v2 : json) :
  forall d : jsval,
    set_field q v2 (Some (set_field q v1 d)) = set_field q v2 d.
Proof.
  induction q as [|k q IH]; intros d; [reflexivity|].
  cbn [set_field]. rewrite lookup_insert_eq, IH, insert_insert_eq. reflexivity.
Qed.

Lemma set_field_isOpen_keeps_categories (d v : json) :
  has_categories d = true ->
  has_categories (set_field isOpen_path v (Some d)) = true.
Proof.
  destruct d as [| | | | |m]; simpl; intros H; try discriminate H.
  by rewrite lookup_insert_ne.
Qed.

(** ** One request: what every route guarantees *)

(** X1: an exception escapes a route handler in one situation only: the
    status route of a configured server destructuring [isOpen] from a
    request without a body ([undefined], or [null]).  On no other route,
    handle or body does a handler throw outside its [try]. *)
Theorem only_patch_without_body_throws (db : option client) (r : route)
    (body : jsval) (fs : firestore) :
  (dispatch db r body fs).1 = Throw <->
  r = PATCH_api_status_loja /\ is_Some db /\ (body = undefined \/ body = Some JNull).
Proof.
  split.
  - intros H. serve_cases db r body fs; try discriminate.
    split; [reflexivity | split; [eauto|]].
    destruct body as [[]|]; simpl in *; try discriminate; auto.
  - intros (-> & [c ->] & [-> | ->]); reflexivity.
Qed.

Lemma only_patch_without_body_throws_witness :
  (dispatch (Some healthy) PATCH_api_status_loja undefined empty_store).1 = Throw.
Proof.
  apply (only_patch_without_body_throws (Some healthy) PATCH_api_status_loja
           undefined empty_store).
  split; [reflexivity | split; [by eexists | by left]].
Defined.

(** X2: whatever the request, a response has status 200, 400, 404 or 500,
    and every response that is not a 200 carries an error body
    [{ erro: message }]. *)
Theorem answer_status_codes (db : option client) (r : route) (body : jsval)
    (fs : firestore) (resp : response) :
  (dispatch db r body fs).1 = Normal resp ->
  (status resp = 200 \/ status resp = 400 \/ status resp = 404 \/ status resp = 500)
  /\ (status resp <> 200 -> is_error_body (content resp)).
Proof.
  intros H. serve_cases db r body fs; simplify_eq; simpl;
    (split; [auto | intros Hne; try (by destruct Hne); eexists; reflexivity]).
Qed.

Lemma answer_status_codes_witness :
  (status (status_json 404 (erro "Configuração não encontrada.")) = 200
   \/ status (status_json 404 (erro "Configuração não encontrada.")) = 400
   \/ status (status_json 404 (erro "Configuração não encontrada.")) = 404
   \/ status (status_json 404 (erro "Configuração não encontrada.")) = 500)
  /\ (status (status_json 404 (erro "Configuração não encontrada.")) <> 200 ->
      is_error_body (content (status_json 404 (erro "Configuração não encontrada.")))).
Proof.
  apply (answer_status_codes (Some healthy) GET_api_menu undefined empty_store).
  reflexivity.
Defined.

(** X3: no partial effect.  When a request is not answered with 200 (an
    error response, or no response at all), every stored document is as
    it was before the request. *)
Theorem failed_request_keeps_documents (db : option client) (r : route)
    (body : jsval) (fs : firestore) :
  status_of (dispatch db r body fs).1 <> Some 200 ->
  docs (dispatch db r body fs).2 = docs fs.
Proof.
  intros H. serve_cases db r body fs; try reflexivity;
    match goal with Hne : _ <> _ |- _ => by destruct Hne end.
Qed.

Lemma failed_request_keeps_documents_witness :
  docs (dispatch (Some unreachable) PUT_api_menu
          (Some (JObj {[ "categories" := JArr [] ]}))
          (Firestore {[ DOC_PATH := JObj {[ "categories" := JStr "x" ]} ]} [])).2
  = {[ DOC_PATH := JObj {[ "categories" := JStr "x" ]} ]}.
Proof.
  refine (failed_request_keeps_documents (Some unreachable) PUT_api_menu
            (Some (JObj {[ "categories" := JArr [] ]}))
            (Firestore {[ DOC_PATH := JObj {[ "categories" := JStr "x" ]} ]} []) _).
  vm_compute. discriminate.
Defined.

Lemma at_most_one_call_aux (db : option client) (r : route) (body : jsval)
    (fs : firestore) :
  calls (dispatch db r body fs).2 = calls fs
  \/ exists call,
       calls (dispatch db r body fs).2 = call :: calls fs
       /\ call_path call = DOC_PATH.
Proof.
  serve_cases db r body fs; auto; right; eexists; split; reflexivity.
Qed.

(** X4: a request makes at most one call on the store, and that call
    addresses the document at the fixed path [DOC_PATH]. *)
Theorem at_most_one_call (db : option client) (r : route) (body : jsval)
    (fs : firestore) :
  calls (dispatch db r body fs).2 = calls fs
  \/ exists call,
       calls (dispatch db r body fs).2 = call :: calls fs
       /\ call_path call = DOC_PATH.
Proof. exact (at_most_one_call_aux db r body fs). Qed.

(** X5: a 400 is a validation answer of a configured server: it is only
    given on the two write routes, only when a database handle exists, and
    the store, documents and call log, is exactly as before. *)
Theorem bad_request_untouched (db : option client) (r : route) (body : jsval)
    (fs : firestore) :
  status_of (dispatch db r body fs).1 = Some 400 ->
  (dispatch db r body fs).2 = fs
  /\ is_Some db
  /\ (r = PUT_api_menu \/ r = PATCH_api_status_loja).
Proof.
  intros H. serve_cases db r body fs; try discriminate; eauto.
Qed.

Lemma bad_request_untouched_witness :
  (dispatch (Some healthy) PATCH_api_status_loja
     (Some (JObj {[ "isOpen" := JStr "yes" ]})) empty_store).2 = empty_store
  /\ is_Some (Some healthy)
  /\ (PATCH_api_status_loja = PUT_api_menu
      \/ PATCH_api_status_loja = PATCH_api_status_loja).
Proof.
  apply (bad_request_untouched (Some healthy) PATCH_api_status_loja
           (Some (JObj {[ "isOpen" := JStr "yes" ]})) empty_store).
  reflexivity.
Defined.

Lemma not_has_categories (d : json) :
  has_categories d = false ->
  truthy (Some d) = false \/
    (exists x, get_prop (Some d) "categories" = Normal x /\ truthy x = false).
Proof.
  destruct d as [| b | x | s | l | m]; intros H;
    [by left | | | | | right; simpl; eauto];
    right; exists undefined; split; reflexivity.
Qed.

(** X6: on a configured server the replace route answers 400 exactly when
    the body is not an object with a truthy [categories]: a missing body,
    [null], a primitive or an array, an object without the field, or one
    whose [categories] is falsy. *)
Theorem put_rejected_iff (c : client) (body : jsval) (fs : firestore) :
  status_of (put_menu (Some c) body fs).1 = Some 400 <->
  (forall d, body = Some d -> has_categories d = false).
Proof.
  split.
  - intros H d ->. destruct (has_categories d) eqn:Hd; [|reflexivity].
    exfalso. pose proof (has_categories_truthy d Hd) as Ht.
    apply has_categories_get_prop in Hd as (x & Hx & Hxt).
    rewrite (put_menu_valid c d x fs Hx Hxt) in H.
    destruct (Store.replace c DOC_PATH d fs) as [[[]|] fs1]; discriminate H.
  - intros H. rewrite put_menu_invalid; [reflexivity|].
    destruct body as [d|]; [|by left].
    apply not_has_categories. by apply H.
Qed.

Lemma put_rejected_iff_witness :
  status_of (put_menu (Some healthy) (Some (JArr [JStr "categories"])) empty_store).1
  = Some 400.
Proof.
  apply (put_rejected_iff healthy (Some (JArr [JStr "categories"])) empty_store).
  intros d Hd. inversion Hd. reflexivity.
Defined.

(** X7: on a configured server the status route answers 400 exactly when
    the request has a body to read [isOpen] from and the value read is not
    of type boolean. *)
Theorem patch_rejected_iff (c : client) (body : jsval) (fs : firestore) :
  status_of (patch_status_loja (Some c) body fs).1 = Some 400 <->
  exists isOpen, get_prop body "isOpen" = Normal isOpen /\ typeof isOpen <> "boolean".
Proof.
  split.
  - intros H.
    change (patch_status_loja (Some c) body fs)
      with (dispatch (Some c) PATCH_api_status_loja body fs) in H.
    serve_cases (Some c) PATCH_api_status_loja body fs; try discriminate.
    eexists. split; [eassumption|].
    intros Ht. apply as_boolean_typeof in Ht as [b Hb]. congruence.
  - intros (isOpen & Hg & Ht).
    unfold patch_status_loja. rewrite Hg.
    destruct (as_boolean isOpen) as [b|] eqn:Hb; [|reflexivity].
    exfalso. apply Ht, as_boolean_typeof. eauto.
Qed.

Lemma patch_rejected_iff_witness :
  status_of (patch_status_loja (Some healthy) (Some (JArr [JBool true])) empty_store).1
  = Some 400.
Proof.
  apply (patch_rejected_iff healthy (Some (JArr [JBool true])) empty_store).
  exists undefined. split; [reflexivity | discriminate].
Defined.

(** X8: when the replace route answers 200, the body was an object with a
    truthy [categories] and the document now stored at the fixed path is
    that body itself: nothing else can be put in the store through this
    route. *)
Theorem put_200_stored (db : option client) (body : jsval) (fs : firestore) :
  status_of (put_menu db body fs).1 = Some 200 ->
  exists d,
    body = Some d /\ has_categories d = true
    /\ docs (put_menu db body fs).2 !! DOC_PATH = Some d.
Proof.
  intros H.
  change (put_menu db body fs) with (dispatch db PUT_api_menu body fs) in *.
  serve_cases db PUT_api_menu body fs; try discriminate.
  eexists. split; [reflexivity | split].
  - apply has_categories_get_prop. eauto.
  - simpl. apply lookup_insert_eq.
Qed.

Lemma put_200_stored_witness :
  exists d,
    Some (JObj {[ "categories" := JStr "prato" ]}) = Some d
    /\ has_categories d = true
    /\ docs (put_menu (Some healthy) (Some (JObj {[ "categories" := JStr "prato" ]}))
               empty_store).2 !! DOC_PATH = Some d.
Proof.
  apply (put_200_stored (Some healthy) (Some (JObj {[ "categories" := JStr "prato" ]}))
           empty_store).
  reflexivity.
Defined.

(** X9: when the store rejects the write, the replace route and the
    status route answer 500 with their own generic message; the call is
    on the log and no document has changed. *)
Theorem write_rejected_by_store (c : client) (fs : firestore) :
  (forall d, has_categories d = true -> serves c (DocSet DOC_PATH d) = false ->
     put_menu (Some c) (Some d) fs
     = (Normal (Response 500 (Json (erro "Erro ao gravar dados na base de dados."))),
        Firestore (docs fs) (DocSet DOC_PATH d :: calls fs)))
  /\ (forall body b, get_prop body "isOpen" = Normal (Some (JBool b)) ->
       serves c (DocUpdate DOC_PATH {[ "settings.isOpen" := JBool b ]}) = false ->
       patch_status_loja (Some c) body fs
       = (Normal (Response 500 (Json (erro "Erro ao atualizar estado."))),
          Firestore (docs fs)
            (DocUpdate DOC_PATH {[ "settings.isOpen" := JBool b ]} :: calls fs))).
Proof.
  split.
  - intros d Hd Hs. apply has_categories_get_prop in Hd as (x & Hx & Hxt).
    rewrite (put_menu_valid c d x fs Hx Hxt).
    unfold Store.replace. rewrite Hs. reflexivity.
  - intros body b Hb Hs. rewrite (patch_status_loja_boolean c body b fs Hb).
    unfold Store.patchField, isOpen_update. rewrite Hs.
    destruct (docs fs !! DOC_PATH); reflexivity.
Qed.

Lemma write_rejected_by_store_witness :
  put_menu (Some unreachable) (Some (JObj {[ "categories" := JArr [] ]})) empty_store
  = (Normal (Response 500 (Json (erro "Erro ao gravar dados na base de dados."))),
     Firestore ∅ [DocSet DOC_PATH (JObj {[ "categories" := JArr [] ]})])
  /\ patch_status_loja (Some unreachable) (Some (JObj {[ "isOpen" := JBool true ]}))
       empty_store
     = (Normal (Response 500 (Json (erro "Erro ao atualizar estado."))),
        Firestore ∅ [DocUpdate DOC_PATH {[ "settings.isOpen" := JBool true ]}]).
Proof.
  destruct (write_rejected_by_store unreachable empty_store) as [Hput Hpatch].
  split.
  - refine (Hput (JObj {[ "categories" := JArr [] ]}) _ _); reflexivity.
  - refine (Hpatch (Some (JObj {[ "isOpen" := JBool true ]})) true _ _); reflexivity.
Defined.


(** ** Requests composed *)

(** The store a served replace leaves. *)
Lemma put_menu_served (c : client) (d : json) (fs : firestore) :
  has_categories d = true -> serves c (DocSet DOC_PATH d) = true ->
  put_menu (Some c) (Some d) fs
  = (Normal menu_updated,
     Firestore (<[ DOC_PATH := d ]> (docs fs)) (DocSet DOC_PATH d :: calls fs)).
Proof.
  intros Hd Hs. apply has_categories_get_prop in Hd as (x & Hx & Hxt).
  rewrite (put_menu_valid c d x fs Hx Hxt).
  unfold Store.replace. rewrite Hs. reflexivity.
Qed.

(** The store a served status patch leaves. *)
Lemma patch_status_loja_served (c : client) (body : jsval) (b : bool)
    (fs : firestore) (d : json) :
  get_prop body "isOpen" = Normal (Some (JBool b)) ->
  docs fs !! DOC_PATH = Some d ->
  serves c (DocUpdate DOC_PATH (isOpen_update b)) = true ->
  patch_status_loja (Some c) body fs
  = (Normal (json_ok (JObj {[ "mensagem" := JStr (loja_mensagem b);
                              "estado" := JBool b ]})),
     Firestore (<[ DOC_PATH := set_field isOpen_path (JBool b) (Some d) ]> (docs fs))
               (DocUpdate DOC_PATH (isOpen_update b) :: calls fs)).
Proof.
  intros Hb Hd Hs. rewrite (patch_status_loja_boolean c body b fs Hb).
  rewrite (patchField_isOpen c DOC_PATH b fs d Hd Hs). reflexivity.
Qed.

(** X10: the last status patch wins.  Two patches applied one after the
    other leave the documents that the second alone would have left; in
    particular repeating a patch changes nothing more. *)
Theorem last_patch_wins (c1 c2 : client) (body1 body2 : jsval) (b1 b2 : bool)
    (fs : firestore) (d : json) :
  get_prop body1 "isOpen" = Normal (Some (JBool b1)) ->
  get_prop body2 "isOpen" = Normal (Some (JBool b2)) ->
  docs fs !! DOC_PATH = Some d ->
  serves c1 (DocUpdate DOC_PATH {[ "settings.isOpen" := JBool b1 ]}) = true ->
  serves c2 (DocUpdate DOC_PATH {[ "settings.isOpen" := JBool b2 ]}) = true ->
  docs (patch_status_loja (Some c2) body2 (patch_status_loja (Some c1) body1 fs).2).2
  = docs (patch_status_loja (Some c2) body2 fs).2.
Proof.
  intros H1 H2 Hd Hs1 Hs2.
  rewrite (patch_status_loja_served c1 body1 b1 fs d H1 Hd Hs1).
  rewrite (patch_status_loja_served c2 body2 b2 fs d H2 Hd Hs2).
  cbn [snd].
  rewrite (patch_status_loja_served c2 body2 b2 _
             (set_field isOpen_path (JBool b1) (Some d)) H2);
    [| apply lookup_insert_eq | exact Hs2].
  cbn [snd docs]. rewrite set_field_overwrite, insert_insert_eq. reflexivity.
Qed.

Lemma last_patch_wins_witness :
  docs (patch_status_loja (Some healthy) (Some (JObj {[ "isOpen" := JBool false ]}))
          (patch_status_loja (Some healthy) (Some (JObj {[ "isOpen" := JBool true ]}))
             (Firestore {[ DOC_PATH := JObj {[ "categories" := JArr [] ]} ]} [])).2).2
  = docs (patch_status_loja (Some healthy) (Some (JObj {[ "isOpen" := JBool false ]}))
            (Firestore {[ DOC_PATH := JObj {[ "categories" := JArr [] ]} ]} [])).2.
Proof.
  refine (last_patch_wins healthy healthy
            (Some (JObj {[ "isOpen" := JBool true ]}))
            (Some (JObj {[ "isOpen" := JBool false ]})) true false
            (Firestore {[ DOC_PATH := JObj {[ "categories" := JArr [] ]} ]} [])
            (JObj {[ "categories" := JArr [] ]}) _ _ _ _ _);
    reflexivity.
Defined.

(** X11: a served full replace erases whatever the request before it did:
    the documents it leaves do not depend on what that request, on any
    route and with any body, had left. *)
Theorem put_erases_earlier_request (db : option client) (r : route) (body0 : jsval)
    (c : client) (d : json) (fs : firestore) :
  has_categories d = true ->
  serves c (DocSet DOC_PATH d) = true ->
  docs (put_menu (Some c) (Some d) (dispatch db r body0 fs).2).2
  = docs (put_menu (Some c) (Some d) fs).2.
Proof.
  intros Hd Hs. rewrite !(put_menu_served c d _ Hd Hs). cbn [snd docs].
  apply map_eq. intros path. destruct (decide (DOC_PATH = path)) as [<-|Hne].
  - by rewrite !lookup_insert_eq.
  - rewrite !lookup_insert_ne by exact Hne.
    apply dispatch_other_documents. congruence.
Qed.

Lemma put_erases_earlier_request_witness :
  docs (put_menu (Some healthy) (Some (JObj {[ "categories" := JArr [] ]}))
          (dispatch (Some healthy) PATCH_api_status_loja
             (Some (JObj {[ "isOpen" := JBool true ]}))
             (Firestore {[ DOC_PATH := JObj {[ "categories" := JStr "x" ]} ]} [])).2).2
  = docs (put_menu (Some healthy) (Some (JObj {[ "categories" := JArr [] ]}))
            (Firestore {[ DOC_PATH := JObj {[ "categories" := JStr "x" ]} ]} [])).2.
Proof.
  refine (put_erases_earlier_request (Some healthy) PATCH_api_status_loja
            (Some (JObj {[ "isOpen" := JBool true ]})) healthy
            (JObj {[ "categories" := JArr [] ]})
            (Firestore {[ DOC_PATH := JObj {[ "categories" := JStr "x" ]} ]} []) _ _);
    reflexivity.
Defined.

(** X12: replace, then patch the status, then fetch.  When the store
    serves the three calls and the replaced body holds no number that JSON
    cannot carry, the fetch answers 200 with a body the client reads as
    the replaced body in which [settings.isOpen] is the patched boolean:
    [categories] is still truthy and every field path that neither leads
    to [settings.isOpen] nor lies below it reads as in the body. *)
Theorem put_patch_get (c : client) (d : json) (body : jsval) (b : bool)
    (fs : firestore) :
  has_categories d = true ->
  json_exact d = true ->
  serves c (DocSet DOC_PATH d) = true ->
  get_prop body "isOpen" = Normal (Some (JBool b)) ->
  serves c (DocUpdate DOC_PATH {[ "settings.isOpen" := JBool b ]}) = true ->
  serves c (DocGet DOC_PATH) = true ->
  exists resp d',
    (get_menu (Some c)
       (patch_status_loja (Some c) body (put_menu (Some c) (Some d) fs).2).2).1
    = Normal resp
    /\ status resp = 200
    /\ received (content resp) = Json d'
    /\ field_at ["settings"; "isOpen"] d' = Some (JBool b)
    /\ has_categories d' = true
    /\ forall p : list string,
         ~ p `prefix_of` ["settings"; "isOpen"] ->
         ~ ["settings"; "isOpen"] `prefix_of` p ->
         field_at p d' = field_at p d.
Proof.
  intros Hd Hex Hset Hb Hupd Hget.
  exists (json_ok (set_field isOpen_path (JBool b) (Some d))),
         (set_field isOpen_path (JBool b) (Some d)).
  rewrite (put_menu_served c d fs Hd Hset). cbn [snd].
  rewrite (patch_status_loja_served c body b _ d Hb);
    [| apply lookup_insert_eq | exact Hupd].
  cbn [snd]. unfold get_menu, Store.fetch. rewrite Hget. cbn [docs].
  rewrite lookup_insert_eq.
  split; [reflexivity | split; [reflexivity | split; [|split; [|split]]]].
  - cbn [json_ok content received]. f_equal. apply wire_exact.
    apply json_exact_set_field; [reflexivity|]. by intros x [= <-].
  - apply field_at_set_field_same.
  - by apply set_field_isOpen_keeps_categories.
  - intros p H1 H2.
    apply (field_at_set_field_frame isOpen_path (JBool b) (Some d) p H1 H2).
Qed.

Lemma put_patch_get_witness :
  exists resp d',
    (get_menu (Some healthy)
       (patch_status_loja (Some healthy) (Some (JObj {[ "isOpen" := JBool true ]}))
          (put_menu (Some healthy) (Some (JObj {[ "categories" := JArr [] ]}))
             empty_store).2).2).1
    = Normal resp
    /\ status resp = 200
    /\ received (content resp) = Json d'
    /\ field_at ["settings"; "isOpen"] d' = Some (JBool true)
    /\ has_categories d' = true
    /\ forall p : list string,
         ~ p `prefix_of` ["settings"; "isOpen"] ->
         ~ ["settings"; "isOpen"] `prefix_of` p ->
         field_at p d' = field_at p (JObj {[ "categories" := JArr [] ]}).
Proof.
  refine (put_patch_get healthy (JObj {[ "categories" := JArr [] ]})
            (Some (JObj {[ "isOpen" := JBool true ]})) true empty_store _ _ _ _ _ _);
    reflexivity.
Defined.

(** X13: the fetch route reads only.  It leaves every document as it is,
    and, asked again while the store behaves the same, gives the same
    answer. *)
Theorem get_menu_reads_only (db : option client) (fs : firestore) :
  docs (get_menu db fs).2 = docs fs
  /\ (get_menu db (get_menu db fs).2).1 = (get_menu db fs).1.
Proof.
  destruct db as [c|]; [|split; reflexivity].
  unfold get_menu, Store.fetch.
  destruct (serves c (DocGet DOC_PATH)) eqn:Hs; simpl.
  - destruct (docs fs !! DOC_PATH) as [d|] eqn:Hd; simpl; rewrite ?Hs, ?Hd;
      split; reflexivity.
  - split; reflexivity.
Qed.

(** ** Runs of requests *)

Lemma session_cons (configured : bool) (c : client) (rq : request)
    (rest : list (client * request)) (fs : firestore) :
  session configured ((c, rq) :: rest) fs
  = ((dispatch (if configured then Some c else None) (target rq) (req_body rq) fs).1
       :: (session configured rest
             (dispatch (if configured then Some c else None)
                (target rq) (req_body rq) fs).2).1,
     (session configured rest
        (dispatch (if configured then Some c else None)
           (target rq) (req_body rq) fs).2).2).
Proof.
  cbn [session].
  destruct (dispatch _ _ _ fs) as [answer fs1]. cbn [fst snd].
  destruct (session configured rest fs1) as [answers fs2]. reflexivity.
Qed.

(** What every request preserves, every run preserves. *)
Lemma session_preserves (P : firestore -> Prop) :
  (forall db r body fs, P fs -> P (dispatch db r body fs).2) ->
  forall configured steps fs, P fs -> P (session configured steps fs).2.
Proof.
  intros Hstep configured steps.
  induction steps as [|[c rq] rest IH]; intros fs HP; [exact HP|].
  rewrite session_cons. cbn [snd]. apply IH, Hstep, HP.
Qed.

Lemma dispatch_keeps_categories (db : option client) (r : route) (body : jsval)
    (fs : firestore) :
  (forall d, docs fs !! DOC_PATH = Some d -> has_categories d = true) ->
  forall d, docs (dispatch db r body fs).2 !! DOC_PATH = Some d ->
            has_categories d = true.
Proof.
  intros Hinv d. serve_cases db r body fs; simpl; try exact (Hinv d).
  - rewrite lookup_insert_eq. intros [= <-].
    apply has_categories_get_prop. eauto.
  - rewrite lookup_insert_eq. intros [= <-].
    apply set_field_isOpen_keeps_categories. by apply Hinv.
Qed.

Lemma dispatch_keeps_documents (db : option client) (r : route) (body : jsval)
    (fs : firestore) (path : string) :
  is_Some (docs fs !! path) -> is_Some (docs (dispatch db r body fs).2 !! path).
Proof.
  intros Hsome. serve_cases db r body fs; simpl; try exact Hsome;
    (destruct (decide (DOC_PATH = path)) as [<-|Hne];
     [rewrite lookup_insert_eq; eauto | by rewrite lookup_insert_ne]).
Qed.

(** X14: started on a store whose menu document is absent or has a truthy
    [categories], no run of requests, on any routes, with any bodies and
    any store failures in between, leaves a menu document without a truthy
    [categories]. *)
Theorem session_keeps_categories (configured : bool)
    (steps : list (client * request)) (fs : firestore) :
  (forall d, docs fs !! DOC_PATH = Some d -> has_categories d = true) ->
  forall d, docs (session configured steps fs).2 !! DOC_PATH = Some d ->
            has_categories d = true.
Proof.
  apply (session_preserves
           (fun fs => forall d, docs fs !! DOC_PATH = Some d -> has_categories d = true)).
  intros db r body fs0. apply dispatch_keeps_categories.
Qed.

Lemma session_keeps_categories_witness :
  docs (session true
          [ (healthy, Request PUT_api_menu (Some (JObj {[ "categories" := JStr "a" ]})));
            (healthy, Request PATCH_api_status_loja (Some (JObj {[ "isOpen" := JBool true ]})));
            (healthy, Request PUT_api_menu (Some (JObj {[ "settings" := JNull ]}))) ]
          empty_store).2 !! DOC_PATH
  = Some (JObj {[ "categories" := JStr "a";
                  "settings" := JObj {[ "isOpen" := JBool true ]} ]})
  /\ has_categories (JObj {[ "categories" := JStr "a";
                             "settings" := JObj {[ "isOpen" := JBool true ]} ]}) = true.
Proof.
  assert (docs (session true
          [ (healthy, Request PUT_api_menu (Some (JObj {[ "categories" := JStr "a" ]})));
            (healthy, Request PATCH_api_status_loja (Some (JObj {[ "isOpen" := JBool true ]})));
            (healthy, Request PUT_api_menu (Some (JObj {[ "settings" := JNull ]}))) ]
          empty_store).2 !! DOC_PATH
  = Some (JObj {[ "categories" := JStr "a";
                  "settings" := JObj {[ "isOpen" := JBool true ]} ]})) as Hrun.
  { vm_compute. reflexivity. }
  split; [exact Hrun|].
  refine (session_keeps_categories true _ empty_store _ _ Hrun).
  intros d Hd. vm_compute in Hd. discriminate Hd.
Defined.

(** X15: the server never deletes: a document that exists in the store
    still exists after any run of requests. *)
Theorem session_never_deletes (configured : bool)
    (steps : list (client * request)) (fs : firestore) (path : string) :
  is_Some (docs fs !! path) ->
  is_Some (docs (session configured steps fs).2 !! path).
Proof.
  apply (session_preserves (fun fs => is_Some (docs fs !! path))).
  intros db r body fs0. apply dispatch_keeps_documents.
Qed.

Lemma session_never_deletes_witness :
  is_Some (docs (session true
                   [ (healthy, Request PATCH_api_status_loja
                                 (Some (JObj {[ "isOpen" := JBool false ]})));
                     (unreachable, Request PUT_api_menu (Some (JObj ∅))) ]
                   (Firestore {[ DOC_PATH := JObj ∅ ]} [])).2 !! DOC_PATH).
Proof.
  refine (session_never_deletes true
            [ (healthy, Request PATCH_api_status_loja
                          (Some (JObj {[ "isOpen" := JBool false ]})));
              (unreachable, Request PUT_api_menu (Some (JObj ∅))) ]
            (Firestore {[ DOC_PATH := JObj ∅ ]} []) DOC_PATH _).
  eexists. reflexivity.
Defined.

(** X16: the server writes one document only: every document at a path
    other than [DOC_PATH] is, after any run of requests, exactly as it
    was. *)
Theorem session_other_documents (configured : bool)
    (steps : list (client * request)) (fs : firestore) (path : string) :
  path <> DOC_PATH ->
  docs (session configured steps fs).2 !! path = docs fs !! path.
Proof.
  intros Hne.
  apply (session_preserves (fun fs' => docs fs' !! path = docs fs !! path));
    [|reflexivity].
  intros db r body fs0 <-. by apply dispatch_other_documents.
Qed.

Lemma session_other_documents_witness :
  docs (session true
          [ (healthy, Request PUT_api_menu (Some (JObj {[ "categories" := JStr "a" ]}))) ]
          (Firestore {[ "pedidos/1" := JNull ]} [])).2 !! "pedidos/1"
  = Some JNull.
Proof.
  refine (session_other_documents true
            [ (healthy, Request PUT_api_menu (Some (JObj {[ "categories" := JStr "a" ]}))) ]
            (Firestore {[ "pedidos/1" := JNull ]} []) "pedidos/1" _).
  discriminate.
Defined.

(** X17: a server without a database handle goes through any run of
    requests without touching the store: each database-backed request is
    answered with the 500 of the missing handle, each [GET /] with the
    liveness text. *)
Theorem session_without_database (steps : list (client * request)) (fs : firestore) :
  session false steps fs
  = (map (fun step : client * request =>
            if database_backed (target step.2)
            then Normal no_db
            else Normal (send "Backend Disk Marmitas está Online! 🚀"))
         steps,
     fs).
Proof.
  induction steps as [|[c rq] rest IH]; [reflexivity|].
  rewrite session_cons.
  assert (dispatch None (target rq) (req_body rq) fs
          = (if database_backed (target rq)
             then Normal no_db
             else Normal (send "Backend Disk Marmitas está Online! 🚀"), fs)) as ->.
  { destruct (target rq); reflexivity. }
  cbn [fst snd]. rewrite IH. reflexivity.
Qed.

(** X18: over a run, the calls that reach the store are at most as many as
    the requests, and each of them addresses [DOC_PATH]. *)
Theorem session_calls (configured : bool) (steps : list (client * request))
    (fs : firestore) :
  exists new : list store_call,
    calls (session configured steps fs).2 = (new ++ calls fs)%list
    /\ (length new <= length steps)%nat
    /\ Forall (fun call => call_path call = DOC_PATH) new.
Proof.
  revert fs. induction steps as [|[c rq] rest IH]; intros fs.
  - exists []. repeat split; [simpl; lia | constructor].
  - rewrite session_cons. cbn [snd].
    set (db := if configured then Some c else None).
    destruct (IH (dispatch db (target rq) (req_body rq) fs).2)
      as (new & Hcalls & Hlen & Hall).
    destruct (at_most_one_call_aux db (target rq) (req_body rq) fs)
      as [Hsame | (call & Hcall & Hpath)].
    + exists new. rewrite Hcalls, Hsame. repeat split; [simpl; lia | exact Hall].
    + exists (new ++ [call])%list. rewrite Hcalls, Hcall.
      split; [by rewrite <- app_assoc | split].
      * rewrite length_app. simpl. lia.
      * apply Forall_app. split; [exact Hall | by constructor].
Qed.

(** ** Start-up *)

(** X19: the environment variable takes precedence and there is no
    fallback.  When [FIREBASE_SERVICE_ACCOUNT] is set to a non-empty
    string, the local key file plays no part in the start-up; if the
    string does not parse, the server starts without a database handle
    even where a good key file exists. *)
Theorem env_credentials_take_precedence (h : host) (blob : string) :
  FIREBASE_SERVICE_ACCOUNT h = Some blob -> blob <> "" ->
  (forall file : attempt json,
     startup (Host (FIREBASE_SERVICE_ACCOUNT h) (JSON_parse h) file (initializeApp h))
     = startup h)
  /\ (forall message, JSON_parse h blob = Failed message ->
       startup h = (None, critical message)).
Proof.
  intros Henv Hne.
  assert (truthy (JStr <$> Some blob) = true) as Ht.
  { simpl. destruct (String.eqb_spec blob ""); [contradiction | reflexivity]. }
  split.
  - intros file. unfold startup, load_service_account. cbn [FIREBASE_SERVICE_ACCOUNT
      JSON_parse initializeApp serviceAccountKey]. rewrite Henv, Ht. reflexivity.
  - intros message Hp. unfold startup, load_service_account.
    rewrite Henv, Ht. cbn [from_option id]. rewrite Hp. reflexivity.
Qed.

Lemma env_credentials_take_precedence_witness :
  startup (Host (Some "{") (fun _ => Failed "Unexpected end of JSON input")
             (Loaded (JObj ∅)) (fun _ => Loaded healthy))
  = (None, critical "Unexpected end of JSON input").
Proof.
  refine (proj2 (env_credentials_take_precedence
                   (Host (Some "{") (fun _ => Failed "Unexpected end of JSON input")
                      (Loaded (JObj ∅)) (fun _ => Loaded healthy))
                   "{" _ _) "Unexpected end of JSON input" _);
    [reflexivity | discriminate | reflexivity].
Defined.

(** X20: when [FIREBASE_SERVICE_ACCOUNT] is unset or empty, the start-up
    goes by the local key file alone and [JSON.parse] plays no part in
    it. *)
Theorem file_credentials_without_env (h : host) :
  FIREBASE_SERVICE_ACCOUNT h = None \/ FIREBASE_SERVICE_ACCOUNT h = Some "" ->
  forall parse : string -> attempt json,
    startup (Host (FIREBASE_SERVICE_ACCOUNT h) parse (serviceAccountKey h)
               (initializeApp h))
    = startup h.
Proof.
  intros Henv parse. unfold startup, load_service_account.
  cbn [FIREBASE_SERVICE_ACCOUNT JSON_parse initializeApp serviceAccountKey].
  destruct Henv as [-> | ->]; reflexivity.
Qed.

Lemma file_credentials_without_env_witness :
  startup (Host (Some "") (fun _ => Loaded JNull) (Loaded (JObj ∅))
             (fun _ => Loaded healthy))
  = startup (Host (Some "") (fun _ => Failed "") (Loaded (JObj ∅))
               (fun _ => Loaded healthy)).
Proof.
  refine (file_credentials_without_env
            (Host (Some "") (fun _ => Failed "") (Loaded (JObj ∅))
               (fun _ => Loaded healthy)) _ (fun _ => Loaded JNull)).
  by right.
Defined.

(** X21: the server comes up without a database handle exactly when the
    start-up ended in the [catch] block, its console output closing with
    the three critical lines. *)
Theorem degraded_iff_critical (h : host) :
  (startup h).1 = None <->
  exists out message, (startup h).2 = (out ++ critical message)%list.
Proof.
  unfold startup, load_service_account.
  destruct (truthy (JStr <$> FIREBASE_SERVICE_ACCOUNT h));
    [destruct (JSON_parse h _) as [sa|m] | destruct (serviceAccountKey h) as [sa|m]];
    try destruct (initializeApp h sa) as [c|m]; cbn [fst snd];
    split; intros H; try reflexivity; try discriminate H; eauto;
    destruct H as (out & message & H);
    apply (f_equal (@length console_line)) in H;
    rewrite length_app in H; simpl in H; lia.
Qed.

Lemma degraded_iff_critical_witness :
  (startup (Host None (fun _ => Failed "") (Failed "Cannot find module")
              (fun _ => Loaded healthy))).1 = None.
Proof.
  apply (degraded_iff_critical
           (Host None (fun _ => Failed "") (Failed "Cannot find module")
              (fun _ => Loaded healthy))).
  exists [], "Cannot find module". reflexivity.
Defined.

(** X22: a start-up that fails, at loading the service account or at
    initialising the application, does not stop the server: [GET /] still
    answers 200 and every database-backed route answers 500 with an error
    body, leaving the store untouched. *)
Theorem failed_startup_degrades (h : host) (message : string) :
  (load_service_account h).1 = Failed message
  \/ (exists sa, (load_service_account h).1 = Loaded sa
                 /\ initializeApp h sa = Failed message) ->
  forall (r : route) (body : jsval) (fs : firestore),
    dispatch (startup h).1 r body fs
    = (if database_backed r
       then Normal (Response 500 (Json (erro "Base de dados não conectada.")))
       else Normal (Response 200 (Text "Backend Disk Marmitas está Online! 🚀")),
       fs).
Proof.
  intros Hfail r body fs.
  assert ((startup h).1 = None) as ->.
  { unfold startup. destruct (load_service_account h) as [[sa|m] out]; cbn [fst] in *.
    - destruct Hfail as [Hf | (sa' & Hl & Hi)]; [discriminate Hf|].
      inversion Hl; subst. rewrite Hi. reflexivity.
    - reflexivity. }
  destruct r; reflexivity.
Qed.

Lemma failed_startup_degrades_witness :
  dispatch (startup (Host None (fun _ => Failed "") (Loaded JNull)
                       (fun _ => Failed "Service account must be an object"))).1
    PUT_api_menu (Some (JObj {[ "categories" := JArr [] ]})) empty_store
  = (Normal (Response 500 (Json (erro "Base de dados não conectada."))), empty_store).
Proof.
  refine (failed_startup_degrades
            (Host None (fun _ => Failed "") (Loaded JNull)
               (fun _ => Failed "Service account must be an object"))
            "Service account must be an object" _
            PUT_api_menu (Some (JObj {[ "categories" := JArr [] ]})) empty_store).
  right. exists JNull. split; reflexivity.
Defined.
